(** * CrisisChatFHE: a shallow embedding of the contract and its properties

    The development follows [contracts/CrisisChatFHE.sol].  Storage is a
    record, Solidity mappings are finite maps read with a zero default,
    and every external function is a computation in a small
    reader/state/error/log monad, so that a reverted call leaves no trace.

    The contract links against the [@fhevm/solidity] library, which is an
    external dependency.  Its operations are the members of the class
    [FHELib]; every general statement below holds for any library. *)

From Stdlib Require Import ZArith Lia.
From Stdlib.Strings Require Import Byte String.
From stdpp Require Import base numbers strings list list_numbers sorting gmap.

Open Scope Z_scope.

(** ** Solidity value types *)

(** [uint256], [address], [euint32], [ebool] and [bytes32] are all words;
    they are kept as integers, with the range checks that the compiler
    inserts written out where the code does arithmetic. *)
Definition MAX_UINT256 : Z := 2 ^ 256 - 1.
Definition MAX_UINT64 : Z := 2 ^ 64 - 1.

(** [bytes memory] *)
Definition bytes : Type := list Byte.byte.

(** ** The structs of the contract *)

Record EncryptedMessage : Type := mkEncryptedMessage {
  id : Z;
  encryptedContent : Z;
  encryptedRiskScore : Z;
  timestamp : Z;
  isHighRisk : bool
}.

Record DecryptedAlert : Type := mkDecryptedAlert {
  content : string;
  riskScore : Z;
  isDecrypted : bool
}.

(** The value a mapping yields at a slot that was never written. *)
Definition zeroMessage : EncryptedMessage :=
  {| id := 0; encryptedContent := 0; encryptedRiskScore := 0;
     timestamp := 0; isHighRisk := false |}.

Definition zeroAlert : DecryptedAlert :=
  {| content := EmptyString; riskScore := 0; isDecrypted := false |}.

(** Reading a mapping: Solidity has no notion of a missing key, a slot
    that was never written reads as the zero value of its type. *)
Class ZeroValue (A : Type) : Type := zero_value : A.

#[global] Instance uint256_zero : ZeroValue Z := 0.
#[global] Instance EncryptedMessage_zero : ZeroValue EncryptedMessage := zeroMessage.
#[global] Instance DecryptedAlert_zero : ZeroValue DecryptedAlert := zeroAlert.

Definition slot {A} `{ZeroValue A} (m : gmap Z A) (key : Z) : A :=
  default zero_value (m !! key).

Definition set_isHighRisk (b : bool) (m : EncryptedMessage) : EncryptedMessage :=
  {| id := id m; encryptedContent := encryptedContent m;
     encryptedRiskScore := encryptedRiskScore m;
     timestamp := timestamp m; isHighRisk := b |}.

(** ** Events *)

Inductive Event : Type :=
| MessageSubmitted (id : Z) (timestamp : Z)
| RiskAssessmentComplete (id : Z) (isHighRisk : bool)
| AlertGenerated (id : Z)
| DecryptionRequested (id : Z)
| AlertDecrypted (id : Z)
| DecryptionFulfilled (requestID : Z).   (* declared by the FHE library *)

(** ** Failures *)

Inductive FHEOp : Type := OpGt | OpRequestDecryption | OpCheckSignatures.

Inductive Error : Type :=
| Revert (reason : string)      (* [require(cond, reason)] *)
| Panic (code : Z)              (* compiler-inserted checks *)
| AbiDecodeError                (* [abi.decode] on ill-formed data *)
| FHERevert (op : FHEOp).       (* a revert raised inside the FHE library *)

Inductive result (A : Type) : Type :=
| Ok (a : A)
| Err (e : Error).
Arguments Ok {A} a.
Arguments Err {A} e.

(** ** The FHE library *)

(** The two callbacks the contract hands to [FHE.requestDecryption]. *)
Inductive Selector : Type :=
| handleRiskAssessment_selector
| handleAlertDecryption_selector.

(** The library keeps storage of its own ([fhe_state]); an operation that
    answers [None] has reverted.  [FHE_checkSignatures] is the verification
    inside [FHE.checkSignatures]: it either reverts or lets the caller
    continue.  Memory is not tracked by the embedding, so the free-memory
    pointer that the entry code and the library leave behind when
    [FHE.checkSignatures] returns is a member as well. *)
Class FHELib : Type := {
  fhe_state : Type;
  FHE_gt : Z → Z → fhe_state → option (Z * fhe_state);
  FHE_requestDecryption :
    list Z → Selector → fhe_state → option (Z * fhe_state);
  FHE_checkSignatures : Z → bytes → bytes → fhe_state → option fhe_state;
  FHE_free_memory : Z → bytes → bytes → fhe_state → Z
}.

(** [FHE.toBytes32] unwraps the user-defined value type: the handle itself. *)
Definition FHE_toBytes32 (handle : Z) : Z := handle.

(** ** ABI decoding of callback payloads *)

(** Big-endian value of a run of bytes. *)
Definition be_word (bs : bytes) : Z :=
  fold_left (λ acc b, acc * 256 + Z.of_N (Byte.to_N b)) bs 0.

(** The 32-byte word of [data] at byte position [pos]. *)
Definition mload (data : bytes) (pos : Z) : Z :=
  be_word (take 32 (drop (Z.to_nat pos) data)).

(** [abi.decode(data, (bool))]: one head word, which must be 0 or 1. *)
Definition abi_decode_bool (data : bytes) : result bool :=
  if Z.of_nat (length data) <? 32 then Err AbiDecodeError
  else
    let w := mload data 0 in
    if w =? 0 then Ok false
    else if w =? 1 then Ok true
    else Err AbiDecodeError.

(** A size rounded up to a multiple of 32. *)
Definition round_up_32 (n : Z) : Z := (n + 31) / 32 * 32.

(** [abi.decode(data, (string))]: the head word is the offset of the tail,
    the tail is a length word followed by that many bytes.  The result is
    allocated (length word plus padded data, from the free-memory pointer
    [memPtr]) before the data is checked to lie inside [data]; an
    allocation that leaves the 64-bit range is Panic(0x41). *)
Definition abi_decode_string (memPtr : Z) (data : bytes) : result string :=
  let size := Z.of_nat (length data) in
  if size <? 32 then Err AbiDecodeError
  else
    let offset := mload data 0 in
    if MAX_UINT64 <? offset then Err AbiDecodeError
    else if negb (offset + 31 <? size) then Err AbiDecodeError
    else
      let len := mload data offset in
      if MAX_UINT64 <? len then Err (Panic 65)
      else if MAX_UINT64 <? memPtr + (round_up_32 len + 32) then Err (Panic 65)
      else if size <? offset + 32 + len then Err AbiDecodeError
      else
        Ok (string_of_list_byte
              (take (Z.to_nat len) (drop (Z.to_nat (offset + 32)) data))).

Section Contract.
Context {L : FHELib}.

(** ** Storage *)

Record State : Type := mkState {
  messageCount : Z;
  encryptedMessages : gmap Z EncryptedMessage;
  decryptedAlerts : gmap Z DecryptedAlert;
  encryptedThreshold : Z;
  requestToMessageId : gmap Z Z;
  counselor : Z;
  thresholdSet : bool;
  fhe : fhe_state
}.

Definition set_messageCount (v : Z) (s : State) : State :=
  mkState v (encryptedMessages s) (decryptedAlerts s) (encryptedThreshold s)
    (requestToMessageId s) (counselor s) (thresholdSet s) (fhe s).
Definition set_encryptedMessages (v : gmap Z EncryptedMessage) (s : State) : State :=
  mkState (messageCount s) v (decryptedAlerts s) (encryptedThreshold s)
    (requestToMessageId s) (counselor s) (thresholdSet s) (fhe s).
Definition set_decryptedAlerts (v : gmap Z DecryptedAlert) (s : State) : State :=
  mkState (messageCount s) (encryptedMessages s) v (encryptedThreshold s)
    (requestToMessageId s) (counselor s) (thresholdSet s) (fhe s).
Definition set_encryptedThreshold (v : Z) (s : State) : State :=
  mkState (messageCount s) (encryptedMessages s) (decryptedAlerts s) v
    (requestToMessageId s) (counselor s) (thresholdSet s) (fhe s).
Definition set_requestToMessageId (v : gmap Z Z) (s : State) : State :=
  mkState (messageCount s) (encryptedMessages s) (decryptedAlerts s)
    (encryptedThreshold s) v (counselor s) (thresholdSet s) (fhe s).
Definition set_thresholdSet (v : bool) (s : State) : State :=
  mkState (messageCount s) (encryptedMessages s) (decryptedAlerts s)
    (encryptedThreshold s) (requestToMessageId s) (counselor s) v (fhe s).
Definition set_fhe (v : fhe_state) (s : State) : State :=
  mkState (messageCount s) (encryptedMessages s) (decryptedAlerts s)
    (encryptedThreshold s) (requestToMessageId s) (counselor s)
    (thresholdSet s) v.

(** ** The execution monad *)

(** What a call sees of its transaction. *)
Record Env : Type := mkEnv {
  msg_sender : Z;
  block_timestamp : Z
}.

(** A computation reads the environment, threads the storage and the
    event log, and either returns or fails; a failure carries no state. *)
Definition M (A : Type) : Type :=
  Env → State → list Event → result (A * State * list Event).

Definition ret {A} (a : A) : M A := λ _ s log, Ok (a, s, log).

Definition bind {A B} (m : M A) (k : A → M B) : M B :=
  λ env s log,
    match m env s log with
    | Ok (a, s', log') => k a env s' log'
    | Err e => Err e
    end.

Definition fail {A} (e : Error) : M A := λ _ _ _, Err e.
Definition get : M State := λ _ s log, Ok (s, s, log).
Definition modify (f : State → State) : M unit := λ _ s log, Ok (tt, f s, log).
Definition ask : M Env := λ env s log, Ok (env, s, log).
Definition emit (e : Event) : M unit := λ _ s log, Ok (tt, s, log ++ [e]).
Definition lift {A} (r : result A) : M A :=
  match r with Ok a => ret a | Err e => fail e end.

Definition require (cond : bool) (reason : string) : M unit :=
  if cond then ret tt else fail (Revert reason).

(** Checked [uint256] addition (Solidity 0.8): overflow is Panic(0x11). *)
Definition checked_add (a b : Z) : M Z :=
  if MAX_UINT256 <? a + b then fail (Panic 17) else ret (a + b).

(** A call into the library, run on the library's part of the storage. *)
Definition fhe_call {A} (op : FHEOp) (f : fhe_state → option (A * fhe_state)) : M A :=
  λ _ s log,
    match f (fhe s) with
    | Some (a, st) => Ok (a, set_fhe st s, log)
    | None => Err (FHERevert op)
    end.
End Contract.

Arguments State L : clear implicits.
Arguments M L A : clear implicits.

Notation "x <- m ; k" := (bind m (λ x, k))
  (at level 20, m at level 100, k at level 200, only parsing).

Notation "m ;; k" := (bind m (λ _, k))
  (at level 100, k at level 200, only parsing, right associativity).

(** ** The contract *)

Section Functions.
Context {L : FHELib}.

(** [constructor]: the deployer becomes the counselor; everything else
    starts at its zero value.  The library's storage is whatever the
    inherited configuration left. *)
Definition constructor (deployer : Z) (fhe0 : fhe_state) : State L :=
  {| messageCount := 0;
     encryptedMessages := ∅;
     decryptedAlerts := ∅;
     encryptedThreshold := 0;
     requestToMessageId := ∅;
     counselor := deployer;
     thresholdSet := false;
     fhe := fhe0 |}.

(** [modifier onlyCounselor] *)
Definition onlyCounselor {A} (body : M L A) : M L A :=
  env <- ask;
  s <- get;
  require (msg_sender env =? counselor s) "Unauthorized";;
  body.

Definition setEncryptedThreshold (_encryptedThreshold : Z) : M L unit :=
  onlyCounselor (
    s <- get;
    require (negb (thresholdSet s)) "Threshold already set";;
    modify (set_encryptedThreshold _encryptedThreshold);;
    modify (set_thresholdSet true)).

Definition _assessRisk (messageId : Z) : M L unit :=
  s <- get;
  let message := slot (encryptedMessages s) messageId in
  isHighRiskEncrypted <-
    fhe_call OpGt (FHE_gt (encryptedRiskScore message) (encryptedThreshold s));
  let ciphertexts := [FHE_toBytes32 isHighRiskEncrypted] in
  reqId <-
    fhe_call OpRequestDecryption
      (FHE_requestDecryption ciphertexts handleRiskAssessment_selector);
  modify (λ s, set_requestToMessageId (<[reqId := messageId]> (requestToMessageId s)) s);;
  emit (DecryptionRequested messageId).

Definition submitEncryptedMessage (encryptedContent encryptedRiskScore : Z) : M L unit :=
  env <- ask;
  s <- get;
  count <- checked_add (messageCount s) 1;
  modify (set_messageCount count);;
  let newId := count in
  modify (λ s, set_encryptedMessages
    (<[newId := {| id := newId;
                   encryptedContent := encryptedContent;
                   encryptedRiskScore := encryptedRiskScore;
                   timestamp := block_timestamp env;
                   isHighRisk := false |}]> (encryptedMessages s)) s);;
  modify (λ s, set_decryptedAlerts
    (<[newId := {| content := EmptyString;
                   riskScore := 0;
                   isDecrypted := false |}]> (decryptedAlerts s)) s);;
  emit (MessageSubmitted newId (block_timestamp env));;
  _assessRisk newId.

(** [FHE.checkSignatures(requestId, cleartexts, proof)]: the library's code
    runs inside the contract; once the proof has verified it ends by
    emitting [DecryptionFulfilled], and it leaves the free-memory pointer,
    which it returns here for the decoding that follows. *)
Definition checkSignatures (requestId : Z) (cleartexts proof : bytes) : M L Z :=
  fhe_call OpCheckSignatures
    (λ st, (λ st', (tt, st')) <$> FHE_checkSignatures requestId cleartexts proof st);;
  emit (DecryptionFulfilled requestId);;
  s <- get;
  ret (FHE_free_memory requestId cleartexts proof (fhe s)).

Definition handleRiskAssessment (requestId : Z) (cleartexts proof : bytes) : M L unit :=
  s <- get;
  let messageId := slot (requestToMessageId s) requestId in
  require (negb (messageId =? 0)) "Invalid request";;
  checkSignatures requestId cleartexts proof;;
  isHighRisk <- lift (abi_decode_bool cleartexts);
  modify (λ s, set_encryptedMessages
    (<[messageId := set_isHighRisk isHighRisk (slot (encryptedMessages s) messageId)]>
       (encryptedMessages s)) s);;
  emit (RiskAssessmentComplete messageId isHighRisk);;
  if isHighRisk then emit (AlertGenerated messageId) else ret tt.

Definition requestAlertDecryption (messageId : Z) : M L unit :=
  onlyCounselor (
    s <- get;
    let message := slot (encryptedMessages s) messageId in
    require (isHighRisk message) "Not high risk";;
    require (negb (isDecrypted (slot (decryptedAlerts s) messageId))) "Already decrypted";;
    let ciphertexts := [FHE_toBytes32 (encryptedContent message)] in
    reqId <-
      fhe_call OpRequestDecryption
        (FHE_requestDecryption ciphertexts handleAlertDecryption_selector);
    modify (λ s, set_requestToMessageId (<[reqId := messageId]> (requestToMessageId s)) s);;
    emit (DecryptionRequested messageId)).

Definition handleAlertDecryption (requestId : Z) (cleartexts proof : bytes) : M L unit :=
  s <- get;
  let messageId := slot (requestToMessageId s) requestId in
  require (negb (messageId =? 0)) "Invalid request";;
  let message := slot (encryptedMessages s) messageId in
  require (isHighRisk message) "Not high risk";;
  memPtr <- checkSignatures requestId cleartexts proof;
  content <- lift (abi_decode_string memPtr cleartexts);
  modify (λ s, set_decryptedAlerts
    (<[messageId := {| content := content;
                       riskScore := 0;
                       isDecrypted := true |}]> (decryptedAlerts s)) s);;
  emit (AlertDecrypted messageId).

Definition getDecryptedAlert (messageId : Z) : M L (string * bool) :=
  onlyCounselor (
    s <- get;
    let alert := slot (decryptedAlerts s) messageId in
    ret (content alert, isDecrypted alert)).

(** The getters that [public] generates for the two mappings. *)
Definition encryptedMessages_getter (key : Z) : M L EncryptedMessage :=
  s <- get; ret (slot (encryptedMessages s) key).
Definition decryptedAlerts_getter (key : Z) : M L DecryptedAlert :=
  s <- get; ret (slot (decryptedAlerts s) key).

(** ** Transactions *)

Inductive Call : Type :=
| CallSetEncryptedThreshold (_encryptedThreshold : Z)
| CallSubmitEncryptedMessage (encryptedContent encryptedRiskScore : Z)
| CallHandleRiskAssessment (requestId : Z) (cleartexts proof : bytes)
| CallRequestAlertDecryption (messageId : Z)
| CallHandleAlertDecryption (requestId : Z) (cleartexts proof : bytes).

Definition dispatch (c : Call) : M L unit :=
  match c with
  | CallSetEncryptedThreshold t => setEncryptedThreshold t
  | CallSubmitEncryptedMessage c r => submitEncryptedMessage c r
  | CallHandleRiskAssessment r c p => handleRiskAssessment r c p
  | CallRequestAlertDecryption m => requestAlertDecryption m
  | CallHandleAlertDecryption r c p => handleAlertDecryption r c p
  end.

Record Tx : Type := mkTx {
  tx_env : Env;
  tx_call : Call
}.

(** Running a computation as a top-level call: the log starts empty. *)
Definition run {A} (m : M L A) (env : Env) (s : State L) :
    result (A * State L * list Event) :=
  m env s [].

Definition exec (tx : Tx) (s : State L) : result (unit * State L * list Event) :=
  run (dispatch (tx_call tx)) (tx_env tx) s.

(** The storage after a transaction: a failed one is rolled back. *)
Definition apply_tx (s : State L) (tx : Tx) : State L :=
  match exec tx s with
  | Ok (_, s', _) => s'
  | Err _ => s
  end.

Definition apply_txs (s : State L) (txs : list Tx) : State L :=
  fold_left apply_tx txs s.

(** The events of a transaction: a failed one logs nothing. *)
Definition tx_events (s : State L) (tx : Tx) : list Event :=
  match exec tx s with
  | Ok (_, _, log) => log
  | Err _ => []
  end.

Fixpoint trace_events (s : State L) (txs : list Tx) : list Event :=
  match txs with
  | [] => []
  | tx :: txs' => tx_events s tx ++ trace_events (apply_tx s tx) txs'
  end.

(** The identifiers handed out: the ones announced by [MessageSubmitted]. *)
Definition submitted_id (e : Event) : option Z :=
  match e with
  | MessageSubmitted newId _ => Some newId
  | _ => None
  end.

Definition allocated (s : State L) (txs : list Tx) : list Z :=
  omap submitted_id (trace_events s txs).

(** The states the contract can be in: deployment followed by any
    transactions from any senders. *)
Definition reachable (s : State L) : Prop :=
  ∃ deployer fhe0 txs, s = apply_txs (constructor deployer fhe0) txs.
End Functions.

(** ** The storage each successful call leaves behind *)

Section Outcomes.
Context {L : FHELib}.
Implicit Types (s : State L).

(** The storage a successful submission leaves behind. *)
Definition submitted (c r ts : Z) (reqId : Z) (st : fhe_state) s : State L :=
  let newId := messageCount s + 1 in
  {| messageCount := newId;
     encryptedMessages :=
       <[newId := mkEncryptedMessage newId c r ts false]> (encryptedMessages s);
     decryptedAlerts :=
       <[newId := mkDecryptedAlert EmptyString 0 false]> (decryptedAlerts s);
     encryptedThreshold := encryptedThreshold s;
     requestToMessageId := <[reqId := newId]> (requestToMessageId s);
     counselor := counselor s;
     thresholdSet := thresholdSet s;
     fhe := st |}.

(** The storage after an accepted risk callback. *)
Definition assessed (messageId : Z) (b : bool) (st : fhe_state) s : State L :=
  set_encryptedMessages
    (<[messageId := set_isHighRisk b (slot (encryptedMessages s) messageId)]>
       (encryptedMessages s))
    (set_fhe st s).

(** The storage after a reveal request was issued. *)
Definition requested (messageId reqId : Z) (st : fhe_state) s : State L :=
  set_requestToMessageId (<[reqId := messageId]> (requestToMessageId s))
    (set_fhe st s).

(** The storage after an accepted reveal callback. *)
Definition revealed (messageId : Z) (text : string) (st : fhe_state) s : State L :=
  set_decryptedAlerts
    (<[messageId := mkDecryptedAlert text 0 true]> (decryptedAlerts s))
    (set_fhe st s).
End Outcomes.

(** ** Accepted state transitions *)

Section Transitions.
Context {L : FHELib}.
Implicit Types (s : State L).

(** [transition s s' log]: some call was accepted in [s], left the
    storage [s'] and logged [log].  One constructor per external
    function that writes, with the guards that function checks. *)
Inductive transition s : State L → list Event → Prop :=
| T_setEncryptedThreshold t :
    thresholdSet s = false →
    transition s (set_thresholdSet true (set_encryptedThreshold t s)) []
| T_submitEncryptedMessage c r ts reqId st :
    messageCount s + 1 ≤ MAX_UINT256 →
    transition s (submitted c r ts reqId st s)
      [MessageSubmitted (messageCount s + 1) ts;
       DecryptionRequested (messageCount s + 1)]
| T_handleRiskAssessment requestId b st :
    slot (requestToMessageId s) requestId ≠ 0 →
    transition s (assessed (slot (requestToMessageId s) requestId) b st s)
      (DecryptionFulfilled requestId
         :: RiskAssessmentComplete (slot (requestToMessageId s) requestId) b
         :: (if b then [AlertGenerated (slot (requestToMessageId s) requestId)]
             else []))
| T_requestAlertDecryption messageId reqId st :
    isHighRisk (slot (encryptedMessages s) messageId) = true →
    isDecrypted (slot (decryptedAlerts s) messageId) = false →
    transition s (requested messageId reqId st s) [DecryptionRequested messageId]
| T_handleAlertDecryption requestId text st :
    slot (requestToMessageId s) requestId ≠ 0 →
    isHighRisk (slot (encryptedMessages s) (slot (requestToMessageId s) requestId)) = true →
    transition s (revealed (slot (requestToMessageId s) requestId) text st s)
      [DecryptionFulfilled requestId;
       AlertDecrypted (slot (requestToMessageId s) requestId)].

(** The storage invariant of the contract. *)
Record consistent s : Prop := mkConsistent {
  count_range : 0 ≤ messageCount s ≤ MAX_UINT256;
  messages_allocated :
    ∀ k m, encryptedMessages s !! k = Some m → 1 ≤ k ≤ messageCount s ∧ id m = k;
  messages_present :
    ∀ k, 1 ≤ k ≤ messageCount s → is_Some (encryptedMessages s !! k);
  alerts_allocated :
    ∀ k a, decryptedAlerts s !! k = Some a → 1 ≤ k ≤ messageCount s;
  alerts_sealed :
    ∀ k a, decryptedAlerts s !! k = Some a →
           isDecrypted a = false → content a = EmptyString;
  requests_allocated :
    ∀ r k, requestToMessageId s !! r = Some k → 1 ≤ k ≤ messageCount s;
  threshold_unset :
    thresholdSet s = false → encryptedThreshold s = 0
}.
End Transitions.

(** ** A concrete library, for running the contract *)

(** Request identifiers are drawn from a counter that starts wherever the
    library state says; comparison yields a handle derived from its operands;
    a proof verifies when it is the single byte [0x01]. *)
Definition counter_gt (a b : Z) (st : Z) : option (Z * Z) :=
  Some (a * 2 ^ 32 + b + 1, st).

Definition counter_requestDecryption (cts : list Z) (sel : Selector) (st : Z) :
    option (Z * Z) :=
  Some (st, st + 1).

Definition counter_checkSignatures (requestId : Z) (cleartexts proof : bytes) (st : Z) :
    option Z :=
  match proof with
  | [x01] => Some st
  | _ => None
  end.

(** The pointer after the entry code has copied the two byte arrays into
    memory (a length word and the padded data each, from 0x80 on); this
    library allocates nothing of its own. *)
Definition counter_free_memory (requestId : Z) (cleartexts proof : bytes) (st : Z) : Z :=
  128 + (32 + round_up_32 (Z.of_nat (length cleartexts)))
      + (32 + round_up_32 (Z.of_nat (length proof))).

Definition CounterLib : FHELib :=
  {| fhe_state := Z;
     FHE_gt := counter_gt;
     FHE_requestDecryption := counter_requestDecryption;
     FHE_checkSignatures := counter_checkSignatures;
     FHE_free_memory := counter_free_memory |}.

(** A 32-byte ABI word holding a small number. *)
Definition abi_word (n : Byte.byte) : bytes := replicate 31 x00 ++ [n].

Definition abi_true : bytes := abi_word x01.
Definition abi_false : bytes := abi_word x00.

(** The ABI encoding of a short string: offset 32, length, padded data. *)
Definition abi_string (payload : bytes) : bytes :=
  abi_word x20 ++ abi_word (default x00 (Byte.of_N (N.of_nat (length payload))))
    ++ payload ++ replicate (32 - length payload) x00.

(** ** A run of the contract on the concrete library

    The counselor (address 7) deploys and sets a threshold; address 9
    submits a message, which becomes record 1 with oracle request 0; the
    relayer (address 8) delivers the oracle's answers.  The counselor asks
    twice for the content to be revealed (requests 1 and 2) before either
    answer arrives. *)

Definition deployed : State CounterLib := constructor (L := CounterLib) 7 0.

Definition tx_threshold : Tx := mkTx (mkEnv 7 1000) (CallSetEncryptedThreshold 50).
Definition tx_submit : Tx := mkTx (mkEnv 9 1001) (CallSubmitEncryptedMessage 11 22).
Definition tx_risk (answer : bytes) : Tx :=
  mkTx (mkEnv 8 1002) (CallHandleRiskAssessment 0 answer [x01]).
Definition tx_request (sender : Z) : Tx :=
  mkTx (mkEnv sender 1003) (CallRequestAlertDecryption 1).
Definition plaintext : bytes := [x41; x42].
Definition tx_reveal (requestId : Z) : Tx :=
  mkTx (mkEnv 8 1004) (CallHandleAlertDecryption requestId (abi_string plaintext) [x01]).

Definition configured : State CounterLib := apply_tx deployed tx_threshold.
Definition evaluating : State CounterLib := apply_tx configured tx_submit.
Definition high_risk : State CounterLib := apply_tx evaluating (tx_risk abi_true).
Definition reveal_requested : State CounterLib :=
  apply_txs high_risk [tx_request 7; tx_request 7].
Definition revealed_once : State CounterLib := apply_tx reveal_requested (tx_reveal 1).


(** ** Records and alerts come in pairs *)

Section Pairing.
Context {L : FHELib}.

(** The written slots of both mappings are the identifiers handed out so
    far, and the [riskScore] of an alert is never given a value. *)
Record paired (s : State L) : Prop := mkPaired {
  records_written :
    ∀ k, is_Some (encryptedMessages s !! k) ↔ 1 ≤ k ≤ messageCount s;
  alerts_written :
    ∀ k, is_Some (decryptedAlerts s !! k) ↔ 1 ≤ k ≤ messageCount s;
  alerts_unscored :
    ∀ k a, decryptedAlerts s !! k = Some a → riskScore a = 0
}.
End Pairing.

(** The fields of a record that no transaction rewrites. *)
Definition same_submission (m m' : EncryptedMessage) : Prop :=
  id m' = id m
  ∧ encryptedContent m' = encryptedContent m
  ∧ encryptedRiskScore m' = encryptedRiskScore m
  ∧ timestamp m' = timestamp m.

(** ** What a logged event says about the storage *)

Section Events.
Context {L : FHELib}.

(** [event_holds s' e]: the fact about the storage [s'] that the event [e]
    announces. *)
Definition event_holds (s' : State L) (e : Event) : Prop :=
  match e with
  | MessageSubmitted k ts =>
      k = messageCount s'
      ∧ id (slot (encryptedMessages s') k) = k
      ∧ timestamp (slot (encryptedMessages s') k) = ts
      ∧ isHighRisk (slot (encryptedMessages s') k) = false
      ∧ slot (decryptedAlerts s') k = zeroAlert
  | RiskAssessmentComplete k b => isHighRisk (slot (encryptedMessages s') k) = b
  | AlertGenerated k => isHighRisk (slot (encryptedMessages s') k) = true
  | DecryptionRequested k => ∃ requestId, slot (requestToMessageId s') requestId = k
  | AlertDecrypted k => isDecrypted (slot (decryptedAlerts s') k) = true
  | DecryptionFulfilled requestId => slot (requestToMessageId s') requestId ≠ 0
  end.
End Events.

(** ** The dashboard of the web front end ([frontend/web/src/App.tsx])

    Only the computations of the statistics tab are covered: the four
    counters and the histogram of [renderRiskChart].  Risk levels are
    JavaScript numbers; the type of numbers, the literals and the two
    comparisons the code uses are parameters, so nothing below depends on
    how floating-point comparison behaves. *)

Module App.
Section Dashboard.
Variable number : Type.
Variable num : Z → number.                  (* a numeric literal *)
Variable lte : number → number → bool.      (* [a <= b] *)
Variable gte : number → number → bool.      (* [a >= b] *)

Record CrisisMessage : Type := mkCrisisMessage {
  id : string;
  encryptedContent : string;
  timestamp : number;
  sender : string;
  riskLevel : number;
  status : string;
  fheProof : string
}.

Definition totalMessages (messages : list CrisisMessage) : nat :=
  length messages.
Definition highRiskCount (riskThreshold : number) (messages : list CrisisMessage) : nat :=
  length (List.filter (λ m, gte (riskLevel m) riskThreshold) messages).
Definition flaggedCount (messages : list CrisisMessage) : nat :=
  length (List.filter (λ m, String.eqb (status m) "flagged") messages).
Definition resolvedCount (messages : list CrisisMessage) : nat :=
  length (List.filter (λ m, String.eqb (status m) "resolved") messages).

(** [riskLevels[index]++] *)
Definition increment (index : nat) (riskLevels : list nat) : list nat :=
  alter S index riskLevels.

(** The body of the [forEach] in [renderRiskChart]. *)
Definition count_message (riskLevels : list nat) (message : CrisisMessage) : list nat :=
  if lte (riskLevel message) (num 20) then increment 0 riskLevels
  else if lte (riskLevel message) (num 40) then increment 1 riskLevels
  else if lte (riskLevel message) (num 60) then increment 2 riskLevels
  else if lte (riskLevel message) (num 80) then increment 3 riskLevels
  else increment 4 riskLevels.

Definition riskLevels (messages : list CrisisMessage) : list nat :=
  fold_left count_message messages [0; 0; 0; 0; 0]%nat.

(** [Math.max(...riskLevels) || 1] *)
Definition maxCount (messages : list CrisisMessage) : nat :=
  let largest := max_list (riskLevels messages) in
  if (largest =? 0)%nat then 1%nat else largest.
End Dashboard.
End App.

(** * Properties *)

(** ** What each external function computes *)

Section Equations.
Context {L : FHELib}.
Implicit Types (s : State L) (env : Env) (log : list Event).

Lemma setEncryptedThreshold_eq t env s log :
  setEncryptedThreshold t env s log =
    if msg_sender env =? counselor s then
      if thresholdSet s then Err (Revert "Threshold already set")
      else Ok (tt, set_thresholdSet true (set_encryptedThreshold t s), log)
    else Err (Revert "Unauthorized").
Proof.
  unfold setEncryptedThreshold, onlyCounselor, bind, ask, get, require; simpl.
  destruct (msg_sender env =? counselor s); simpl; [|reflexivity].
  destruct (thresholdSet s); reflexivity.
Qed.

Lemma submitEncryptedMessage_eq c r env s log :
  submitEncryptedMessage c r env s log =
    if MAX_UINT256 <? messageCount s + 1 then Err (Panic 17)
    else
      match FHE_gt r (encryptedThreshold s) (fhe s) with
      | None => Err (FHERevert OpGt)
      | Some (h, st1) =>
          match FHE_requestDecryption [h] handleRiskAssessment_selector st1 with
          | None => Err (FHERevert OpRequestDecryption)
          | Some (reqId, st2) =>
              Ok (tt, submitted c r (block_timestamp env) reqId st2 s,
                  log ++ [MessageSubmitted (messageCount s + 1) (block_timestamp env);
                          DecryptionRequested (messageCount s + 1)])
          end
      end.
Proof.
  unfold submitEncryptedMessage, _assessRisk, checked_add, bind, ask, get,
    modify, emit, fhe_call, fail, ret, FHE_toBytes32; simpl.
  destruct (MAX_UINT256 <? messageCount s + 1); simpl; [reflexivity|].
  unfold slot at 1; rewrite lookup_insert_eq; simpl.
  destruct (FHE_gt _ _ _) as [[h st1]|]; simpl; [|reflexivity].
  destruct (FHE_requestDecryption _ _ _) as [[reqId st2]|]; simpl; [|reflexivity].
  rewrite <- app_assoc. reflexivity.
Qed.

Lemma handleRiskAssessment_eq requestId cleartexts proof env s log :
  handleRiskAssessment requestId cleartexts proof env s log =
    let messageId := slot (requestToMessageId s) requestId in
    if messageId =? 0 then Err (Revert "Invalid request")
    else
      match FHE_checkSignatures requestId cleartexts proof (fhe s) with
      | None => Err (FHERevert OpCheckSignatures)
      | Some st =>
          match abi_decode_bool cleartexts with
          | Err e => Err e
          | Ok b =>
              Ok (tt, assessed messageId b st s,
                  log ++ DecryptionFulfilled requestId
                      :: RiskAssessmentComplete messageId b
                      :: (if b then [AlertGenerated messageId] else []))
          end
      end.
Proof.
  unfold handleRiskAssessment, checkSignatures, bind, get, require, modify,
    emit, fhe_call, lift, fail, ret; simpl.
  destruct (_ =? 0); simpl; [reflexivity|].
  destruct (FHE_checkSignatures _ _ _ _) as [st|]; simpl; [|reflexivity].
  destruct (abi_decode_bool cleartexts) as [[]|e]; simpl; try reflexivity.
  all: rewrite <- !app_assoc; reflexivity.
Qed.

Lemma requestAlertDecryption_eq messageId env s log :
  requestAlertDecryption messageId env s log =
    if msg_sender env =? counselor s then
      if isHighRisk (slot (encryptedMessages s) messageId) then
        if isDecrypted (slot (decryptedAlerts s) messageId)
        then Err (Revert "Already decrypted")
        else
          match FHE_requestDecryption
                  [encryptedContent (slot (encryptedMessages s) messageId)]
                  handleAlertDecryption_selector (fhe s) with
          | None => Err (FHERevert OpRequestDecryption)
          | Some (reqId, st) =>
              Ok (tt, requested messageId reqId st s,
                  log ++ [DecryptionRequested messageId])
          end
      else Err (Revert "Not high risk")
    else Err (Revert "Unauthorized").
Proof.
  unfold requestAlertDecryption, onlyCounselor, bind, ask, get, require,
    modify, emit, fhe_call, fail, ret, FHE_toBytes32; simpl.
  destruct (msg_sender env =? counselor s); simpl; [|reflexivity].
  destruct (isHighRisk _); simpl; [|reflexivity].
  destruct (isDecrypted _); simpl; [reflexivity|].
  destruct (FHE_requestDecryption _ _ _) as [[reqId st]|]; reflexivity.
Qed.

Lemma handleAlertDecryption_eq requestId cleartexts proof env s log :
  handleAlertDecryption requestId cleartexts proof env s log =
    let messageId := slot (requestToMessageId s) requestId in
    if messageId =? 0 then Err (Revert "Invalid request")
    else if isHighRisk (slot (encryptedMessages s) messageId) then
      match FHE_checkSignatures requestId cleartexts proof (fhe s) with
      | None => Err (FHERevert OpCheckSignatures)
      | Some st =>
          match abi_decode_string
                  (FHE_free_memory requestId cleartexts proof st) cleartexts with
          | Err e => Err e
          | Ok text =>
              Ok (tt, revealed messageId text st s,
                  log ++ [DecryptionFulfilled requestId; AlertDecrypted messageId])
          end
      end
    else Err (Revert "Not high risk").
Proof.
  unfold handleAlertDecryption, checkSignatures, bind, get, require, modify,
    emit, fhe_call, lift, fail, ret; simpl.
  destruct (_ =? 0); simpl; [reflexivity|].
  destruct (isHighRisk _); simpl; [|reflexivity].
  destruct (FHE_checkSignatures _ _ _ _) as [st|]; simpl; [|reflexivity].
  destruct (abi_decode_string _ cleartexts) as [text|e]; simpl; [|reflexivity].
  rewrite <- app_assoc. reflexivity.
Qed.

Lemma getDecryptedAlert_eq messageId env s log :
  getDecryptedAlert messageId env s log =
    if msg_sender env =? counselor s then
      Ok ((content (slot (decryptedAlerts s) messageId),
           isDecrypted (slot (decryptedAlerts s) messageId)), s, log)
    else Err (Revert "Unauthorized").
Proof.
  unfold getDecryptedAlert, onlyCounselor, bind, ask, get, require; simpl.
  destruct (msg_sender env =? counselor s); reflexivity.
Qed.
End Equations.

(** ** Mapping reads *)

Section Slots.
Context {A : Type} `{ZeroValue A}.
Implicit Types (m : gmap Z A).

Lemma slot_insert_eq m k v : slot (<[k := v]> m) k = v.
Proof. unfold slot. by rewrite lookup_insert_eq. Qed.

Lemma slot_insert_ne m k k' v : k ≠ k' → slot (<[k := v]> m) k' = slot m k'.
Proof. intros. unfold slot. by rewrite lookup_insert_ne. Qed.

Lemma slot_unwritten m k : m !! k = None → slot m k = zero_value.
Proof. intros Hk. unfold slot. by rewrite Hk. Qed.

Lemma slot_empty k : slot (∅ : gmap Z A) k = zero_value.
Proof. apply slot_unwritten, lookup_empty. Qed.
End Slots.

Lemma slot_nonzero_written (m : gmap Z Z) (k : Z) :
  slot m k ≠ 0 → m !! k = Some (slot m k).
Proof. unfold slot. destruct (m !! k); simpl; [done|]. intros []; reflexivity. Qed.

Lemma slot_high_risk_written (m : gmap Z EncryptedMessage) (k : Z) :
  isHighRisk (slot m k) = true → m !! k = Some (slot m k).
Proof. unfold slot. destruct (m !! k); simpl; [done|]. discriminate. Qed.

(** ** Transactions and transitions *)

Section Steps.
Context {L : FHELib}.
Implicit Types (s : State L) (env : Env) (log : list Event) (tx : Tx).

Lemma exec_transition tx s u s' log :
  exec tx s = Ok (u, s', log) → transition s s' log.
Proof.
  destruct tx as [env [t|c r|requestId cleartexts proof|messageId|requestId cleartexts proof]];
    unfold exec, run; simpl.
  - rewrite setEncryptedThreshold_eq.
    destruct (_ =? _); [|discriminate].
    destruct (thresholdSet s) eqn:Hset; [discriminate|].
    intros [= <- <- <-]. by constructor.
  - rewrite submitEncryptedMessage_eq.
    destruct (MAX_UINT256 <? _) eqn:Hmax; [discriminate|].
    destruct (FHE_gt _ _ _) as [[h st1]|]; [|discriminate].
    destruct (FHE_requestDecryption _ _ _) as [[reqId st2]|]; [|discriminate].
    intros [= <- <- <-]. constructor. lia.
  - rewrite handleRiskAssessment_eq; simpl.
    destruct (_ =? 0) eqn:Hreq; [discriminate|].
    destruct (FHE_checkSignatures _ _ _ _) as [st|]; [|discriminate].
    destruct (abi_decode_bool cleartexts) as [b|e]; [|discriminate].
    intros [= <- <- <-]. constructor. lia.
  - rewrite requestAlertDecryption_eq.
    destruct (_ =? _); [|discriminate].
    destruct (isHighRisk _) eqn:Hrisk; [|discriminate].
    destruct (isDecrypted _) eqn:Hdec; [discriminate|].
    destruct (FHE_requestDecryption _ _ _) as [[reqId st]|]; [|discriminate].
    intros [= <- <- <-]. by constructor.
  - rewrite handleAlertDecryption_eq; simpl.
    destruct (_ =? 0) eqn:Hreq; [discriminate|].
    destruct (isHighRisk _) eqn:Hrisk; [|discriminate].
    destruct (FHE_checkSignatures _ _ _ _) as [st|]; [|discriminate].
    destruct (abi_decode_string _ cleartexts) as [text|e]; [|discriminate].
    intros [= <- <- <-]. constructor; [lia|done].
Qed.

(** A transaction either is rolled back or is an accepted transition. *)
Lemma apply_tx_cases s tx :
  (apply_tx s tx = s ∧ tx_events s tx = [])
  ∨ transition s (apply_tx s tx) (tx_events s tx).
Proof.
  unfold apply_tx, tx_events.
  destruct (exec tx s) as [[[u s'] log]|e] eqn:Hexec; [|by left].
  right. by eapply exec_transition.
Qed.

Lemma constructor_consistent deployer fhe0 : consistent (constructor deployer fhe0).
Proof.
  split; simpl; try (intros ??; rewrite lookup_empty; discriminate).
  - unfold MAX_UINT256. lia.
  - lia.
  - done.
Qed.

Lemma transition_consistent s s' log :
  consistent s → transition s s' log → consistent s'.
Proof.
  intros [Hcount Hmsgs Hpresent Halerts Hsealed Hreqs Hthr] Hstep.
  destruct Hstep as [t Hset|c r ts reqId st Hmax|requestId b st Hreq
                    |messageId reqId st Hrisk Hdec|requestId text st Hreq Hrisk].
  - by split.
  - split; simpl.
    + lia.
    + intros k m. rewrite lookup_insert. case_decide as Hk.
      * intros [= <-]. simpl. lia.
      * intros Hm. destruct (Hmsgs _ _ Hm). lia.
    + intros k Hrange. rewrite lookup_insert. case_decide as Hk; [by eexists|].
      apply Hpresent. lia.
    + intros k a. rewrite lookup_insert. case_decide as Hk.
      * intros _. lia.
      * intros Ha. specialize (Halerts _ _ Ha). lia.
    + intros k a. rewrite lookup_insert. case_decide as Hk.
      * by intros [= <-].
      * apply Hsealed.
    + intros q k. rewrite lookup_insert. case_decide as Hq.
      * intros [= <-]. lia.
      * intros Hk. specialize (Hreqs _ _ Hk). lia.
    + done.
  - apply slot_nonzero_written, Hreqs in Hreq.
    set (messageId := slot (requestToMessageId s) requestId) in *.
    destruct (Hpresent _ Hreq) as [m0 Hm0].
    split; simpl; try done.
    + intros k m. rewrite lookup_insert. case_decide as Hk; [|apply Hmsgs].
      intros [= <-]. subst k. simpl. split; [lia|].
      unfold slot. rewrite Hm0. simpl. by destruct (Hmsgs _ _ Hm0).
    + intros k Hrange. rewrite lookup_insert. case_decide; [by eexists|].
      by apply Hpresent.
  - apply slot_high_risk_written, Hmsgs in Hrisk.
    split; simpl; try done.
    intros q k. rewrite lookup_insert. case_decide as Hq; [|apply Hreqs].
    intros [= <-]. lia.
  - apply slot_nonzero_written, Hreqs in Hreq.
    split; simpl; try done.
    + intros k a. rewrite lookup_insert. case_decide as Hk; [|apply Halerts].
      intros _. lia.
    + intros k a. rewrite lookup_insert. case_decide as Hk; [|apply Hsealed].
      by intros [= <-].
Qed.

Lemma apply_tx_consistent s tx : consistent s → consistent (apply_tx s tx).
Proof.
  intros Hs. destruct (apply_tx_cases s tx) as [[-> _]|Hstep]; [done|].
  by eapply transition_consistent.
Qed.

Lemma apply_txs_consistent s txs : consistent s → consistent (apply_txs s txs).
Proof.
  revert s. induction txs as [|tx txs IH]; intros s Hs; [done|].
  simpl. by apply IH, apply_tx_consistent.
Qed.

Lemma reachable_consistent s : reachable s → consistent s.
Proof.
  intros (deployer & fhe0 & txs & ->).
  apply apply_txs_consistent, constructor_consistent.
Qed.
End Steps.

(** ** Identifier allocation along a trace *)

Lemma seqZ_strictly_increasing (m n : Z) : StronglySorted Z.lt (seqZ m n).
Proof.
  remember (Z.to_nat n) as k eqn:Hk. revert m n Hk.
  induction k as [|k IH]; intros m n Hk.
  - rewrite seqZ_nil by lia. constructor.
  - rewrite seqZ_cons by lia. constructor.
    + apply IH. lia.
    + apply Forall_seqZ. intros. lia.
Qed.

Section Allocation.
Context {L : FHELib}.
Implicit Types (s : State L) (tx : Tx) (txs : list Tx).

Lemma transition_allocates s s' log :
  transition s s' log →
  messageCount s ≤ messageCount s'
  ∧ omap submitted_id log = seqZ (messageCount s + 1) (messageCount s' - messageCount s).
Proof.
  destruct 1; simpl; (split; [lia|]).
  all: try (rewrite seqZ_nil by lia; by try destruct b).
  rewrite seqZ_cons, seqZ_nil by lia. reflexivity.
Qed.

Lemma apply_tx_allocates s tx :
  messageCount s ≤ messageCount (apply_tx s tx)
  ∧ omap submitted_id (tx_events s tx)
    = seqZ (messageCount s + 1) (messageCount (apply_tx s tx) - messageCount s).
Proof.
  destruct (apply_tx_cases s tx) as [[-> ->]|Hstep].
  - split; [lia|]. by rewrite seqZ_nil by lia.
  - by apply transition_allocates.
Qed.

Lemma allocated_cons s tx txs :
  allocated s (tx :: txs)
  = omap submitted_id (tx_events s tx) ++ allocated (apply_tx s tx) txs.
Proof. unfold allocated. simpl. apply omap_app. Qed.

Lemma allocated_from s txs :
  messageCount s ≤ messageCount (apply_txs s txs)
  ∧ allocated s txs
    = seqZ (messageCount s + 1) (messageCount (apply_txs s txs) - messageCount s).
Proof.
  revert s. induction txs as [|tx txs IH]; intros s.
  - simpl. split; [lia|]. by rewrite seqZ_nil by lia.
  - rewrite allocated_cons. simpl.
    destruct (apply_tx_allocates s tx) as [Hle1 ->].
    destruct (IH (apply_tx s tx)) as [Hle2 ->].
    split; [lia|].
    unfold apply_txs in *.
    set (n1 := messageCount (apply_tx s tx)) in *.
    set (n2 := messageCount (fold_left apply_tx txs (apply_tx s tx))) in *.
    replace (n2 - messageCount s) with ((n1 - messageCount s) + (n2 - n1)) by lia.
    rewrite seqZ_app by lia. do 2 f_equal. lia.
Qed.

Lemma apply_txs_snoc s txs tx :
  apply_txs s (txs ++ [tx]) = apply_tx (apply_txs s txs) tx.
Proof. unfold apply_txs. by rewrite fold_left_app. Qed.

(** Identifiers handed out since deployment: exactly 1, 2, ..., [messageCount]. *)
Lemma allocated_since_deployment deployer fhe0 txs :
  allocated (constructor deployer fhe0) txs
  = seqZ 1 (messageCount (apply_txs (constructor deployer fhe0) txs)).
Proof.
  destruct (allocated_from (constructor deployer fhe0) txs) as [_ ->].
  simpl. f_equal. lia.
Qed.
End Allocation.

(** ** Request resolution *)

Lemma abi_decode_bool_error (data : bytes) (e : Error) :
  abi_decode_bool data = Err e → e = AbiDecodeError.
Proof.
  unfold abi_decode_bool.
  repeat (case_match; try discriminate); congruence.
Qed.

Section Resolution.
Context {L : FHELib}.
Implicit Types (s : State L) (env : Env) (log : list Event).

Lemma handleRiskAssessment_unknown_request requestId cleartexts proof env s :
  run (handleRiskAssessment requestId cleartexts proof) env s
    = Err (Revert "Invalid request")
  ↔ slot (requestToMessageId s) requestId = 0.
Proof.
  unfold run. rewrite handleRiskAssessment_eq; simpl.
  destruct (_ =? 0) eqn:Hreq.
  - split; [lia|done].
  - split; [|lia].
    destruct (FHE_checkSignatures _ _ _ _); [|discriminate].
    destruct (abi_decode_bool cleartexts) as [b|e] eqn:Hdec; [discriminate|].
    apply abi_decode_bool_error in Hdec as ->. discriminate.
Qed.

(** C1, as the code has it: an accepted risk callback leaves
    [requestToMessageId] as it was.  The request identifier therefore
    still maps to its record, and a later call of [handleRiskAssessment]
    with that identifier is accepted again whenever its proof verifies
    and its payload decodes, setting the flag of the same record once
    more.  "Invalid request" is the answer exactly for identifiers that
    map to record 0. *)
Theorem risk_callback_not_consumed requestId cleartexts proof env s u s' log :
  run (handleRiskAssessment requestId cleartexts proof) env s = Ok (u, s', log) →
  let messageId := slot (requestToMessageId s) requestId in
  requestToMessageId s' = requestToMessageId s
  ∧ messageId ≠ 0
  ∧ (∀ cleartexts' proof' env' st b,
       FHE_checkSignatures requestId cleartexts' proof' (fhe s') = Some st →
       abi_decode_bool cleartexts' = Ok b →
       run (handleRiskAssessment requestId cleartexts' proof') env' s'
       = Ok (tt, assessed messageId b st s',
             DecryptionFulfilled requestId
               :: RiskAssessmentComplete messageId b
               :: (if b then [AlertGenerated messageId] else [])))
  ∧ (∀ r c p env',
       run (handleRiskAssessment r c p) env' s' = Err (Revert "Invalid request")
       ↔ slot (requestToMessageId s) r = 0).
Proof.
  unfold run at 1. rewrite handleRiskAssessment_eq; simpl.
  destruct (_ =? 0) eqn:Hreq; [discriminate|].
  destruct (FHE_checkSignatures _ _ _ _) as [st0|]; [|discriminate].
  destruct (abi_decode_bool cleartexts) as [b0|e]; [|discriminate].
  intros [= <- <- <-]. simpl.
  split; [done|]. split; [lia|]. split.
  - intros cleartexts' proof' env' st b Hsig Hdec.
    unfold run. rewrite handleRiskAssessment_eq; simpl.
    by rewrite Hreq, Hsig, Hdec.
  - intros r c p env'. by rewrite handleRiskAssessment_unknown_request.
Qed.

End Resolution.

(** C1, refuted as stated: after the oracle's answer for request 0 was
    accepted, the very same callback is accepted a second time. *)
Lemma risk_callback_replay_accepted :
  exec (tx_risk abi_true) evaluating
    = Ok (tt, high_risk,
          [DecryptionFulfilled 0; RiskAssessmentComplete 1 true; AlertGenerated 1])
  ∧ exec (tx_risk abi_true) high_risk
    = Ok (tt, high_risk,
          [DecryptionFulfilled 0; RiskAssessmentComplete 1 true; AlertGenerated 1]).
Proof. split; vm_compute; reflexivity. Qed.

Lemma risk_callback_not_consumed_witness :
  requestToMessageId high_risk = requestToMessageId evaluating
  ∧ slot (requestToMessageId evaluating) 0 ≠ 0.
Proof.
  pose proof (risk_callback_not_consumed (L := CounterLib)
                0 abi_true [x01] (mkEnv 8 1002) evaluating tt high_risk
                [DecryptionFulfilled 0; RiskAssessmentComplete 1 true;
                 AlertGenerated 1]) as Hthm.
  destruct Hthm as (Hsame & Hnz & _).
  - vm_compute. reflexivity.
  - split; [exact Hsame | exact Hnz].
Defined.



(** ** Submission *)

Section Submission.
Context {L : FHELib}.
Implicit Types (s : State L) (env : Env) (log : list Event) (txs : list Tx).

Lemma submitEncryptedMessage_no_require c r env s reason :
  run (submitEncryptedMessage c r) env s ≠ Err (Revert reason).
Proof.
  unfold run. rewrite submitEncryptedMessage_eq.
  repeat case_match; discriminate.
Qed.

(** C2, as the code has it: [submitEncryptedMessage] never looks at
    [thresholdSet].  Called while no threshold is configured, it compares
    the score with the threshold slot as it stands (the zero handle in
    every reachable state) and, unless the counter overflows or a library
    call reverts, creates record and alert [messageCount + 1] and
    registers the oracle request for it.  It never fails on a [require]. *)
Theorem submit_ignores_threshold_flag c r env s h st1 reqId st2 :
  thresholdSet s = false →
  messageCount s < MAX_UINT256 →
  FHE_gt r (encryptedThreshold s) (fhe s) = Some (h, st1) →
  FHE_requestDecryption [h] handleRiskAssessment_selector st1 = Some (reqId, st2) →
  let newId := messageCount s + 1 in
  run (submitEncryptedMessage c r) env s
    = Ok (tt, submitted c r (block_timestamp env) reqId st2 s,
          [MessageSubmitted newId (block_timestamp env); DecryptionRequested newId])
  ∧ (reachable s → encryptedThreshold s = 0)
  ∧ (∀ c' r' env' reason,
       run (submitEncryptedMessage c' r') env' s ≠ Err (Revert reason)).
Proof.
  intros Hunset Hmax Hgt Hreq newId. split; [|split].
  - unfold run. rewrite submitEncryptedMessage_eq, Hgt, Hreq.
    by destruct (Z.ltb_spec MAX_UINT256 (messageCount s + 1)); [lia|].
  - intros Hs. by apply reachable_consistent, threshold_unset in Hs.
  - intros. apply submitEncryptedMessage_no_require.
Qed.

(** C4: the identifiers announced by [MessageSubmitted] since deployment
    are 1, 2, ..., [messageCount], in this order, so they are pairwise
    distinct, strictly increasing and never 0; a successful submission
    advances [messageCount] by exactly 1, announces the new counter value
    as its identifier, and stores under it a record with the submitted
    handles, the block timestamp and [isHighRisk = false], and an alert
    with empty content and [isDecrypted = false]. *)
Theorem submit_allocates_next_identifier deployer fhe0 txs c r env u s' log :
  let s0 := constructor deployer fhe0 in
  let s := apply_txs s0 txs in
  let submit := mkTx env (CallSubmitEncryptedMessage c r) in
  exec submit s = Ok (u, s', log) →
  let newId := messageCount s + 1 in
  allocated s0 txs = seqZ 1 (messageCount s)
  ∧ allocated s0 (txs ++ [submit]) = allocated s0 txs ++ [newId]
  ∧ NoDup (allocated s0 (txs ++ [submit]))
  ∧ StronglySorted Z.lt (allocated s0 (txs ++ [submit]))
  ∧ (0 ∉ allocated s0 (txs ++ [submit]))
  ∧ messageCount s' = newId
  ∧ omap submitted_id log = [newId]
  ∧ slot (encryptedMessages s') newId
    = {| id := newId; encryptedContent := c; encryptedRiskScore := r;
         timestamp := block_timestamp env; isHighRisk := false |}
  ∧ slot (decryptedAlerts s') newId
    = {| content := EmptyString; riskScore := 0; isDecrypted := false |}.
Proof.
  intros s0 s submit Hexec newId.
  assert (Hall : ∀ txs', allocated s0 txs' = seqZ 1 (messageCount (apply_txs s0 txs')))
    by (intros; apply allocated_since_deployment).
  assert (Hs' : apply_txs s0 (txs ++ [submit]) = s').
  { rewrite apply_txs_snoc. fold s. unfold apply_tx. by rewrite Hexec. }
  assert (Hcount : 0 ≤ messageCount s).
  { apply count_range. apply apply_txs_consistent, constructor_consistent. }
  revert Hexec. unfold exec, run; simpl. rewrite submitEncryptedMessage_eq.
  destruct (MAX_UINT256 <? _); [discriminate|].
  destruct (FHE_gt _ _ _) as [[h st1]|]; [|discriminate].
  destruct (FHE_requestDecryption _ _ _) as [[reqId st2]|]; [|discriminate].
  intros [= _ Hs'' <-]. rewrite <- Hs'' in *. clear Hs''.
  assert (Hnew : allocated s0 (txs ++ [submit]) = seqZ 1 (messageCount s) ++ [newId]).
  { rewrite Hall, Hs'. simpl. fold newId. unfold newId.
    rewrite seqZ_app by lia. f_equal.
    rewrite seqZ_cons, seqZ_nil by lia. f_equal. lia. }
  split; [apply Hall|]. split; [by rewrite Hnew, Hall|].
  rewrite Hall, Hs'. simpl.
  split; [apply NoDup_seqZ|]. split; [apply seqZ_strictly_increasing|].
  split; [rewrite elem_of_seqZ; lia|]. split; [done|]. split; [done|].
  by rewrite !slot_insert_eq.
Qed.
End Submission.

(** C2, refuted as stated: right after deployment, with no threshold
    configured, a submission is accepted and becomes record 1; the first
    submission after the threshold is then set becomes record 2. *)
Lemma submit_before_threshold_accepted :
  thresholdSet deployed = false
  ∧ exec tx_submit deployed
    = Ok (tt, submitted (L := CounterLib) 11 22 1001 0 1 deployed,
          [MessageSubmitted 1 1001; DecryptionRequested 1])
  ∧ messageCount (apply_tx deployed tx_submit) = 1
  ∧ allocated deployed [tx_submit; tx_threshold; tx_submit] = [1; 2].
Proof. repeat split; vm_compute; reflexivity. Qed.

Lemma submit_ignores_threshold_flag_witness :
  run (submitEncryptedMessage 11 22) (mkEnv 9 1001) deployed
  = Ok (tt, submitted (L := CounterLib) 11 22 1001 0 1 deployed,
        [MessageSubmitted 1 1001; DecryptionRequested 1]).
Proof.
  refine (proj1 (submit_ignores_threshold_flag (L := CounterLib)
                   11 22 (mkEnv 9 1001) deployed (22 * 2 ^ 32 + 0 + 1) 0 0 1 _ _ _ _)).
  - reflexivity.
  - vm_compute. reflexivity.
  - vm_compute. reflexivity.
  - vm_compute. reflexivity.
Defined.

Lemma submit_allocates_next_identifier_witness :
  allocated deployed ([tx_threshold; tx_submit] ++ [tx_submit]) = [1] ++ [2]
  ∧ messageCount (apply_tx evaluating tx_submit) = 2.
Proof.
  pose proof (submit_allocates_next_identifier (L := CounterLib)
                7 0 [tx_threshold; tx_submit] 11 22 (mkEnv 9 1001) tt
                (apply_tx evaluating tx_submit)
                [MessageSubmitted 2 1001; DecryptionRequested 2]) as Hthm.
  destruct Hthm as (Hbefore & Hafter & _ & _ & _ & Hcount & _).
  - vm_compute. reflexivity.
  - split; [|exact Hcount].
    etransitivity; [exact Hafter|]. vm_compute. reflexivity.
Defined.

(** ** Revealing an alert *)

Section Reveal.
Context {L : FHELib}.
Implicit Types (s : State L) (env : Env) (log : list Event).

(** C5, as the code has it: [requestAlertDecryption] on a record whose
    [isHighRisk] flag is not set fails for every caller, but the caller
    is checked first: anyone but the counselor is turned away with
    "Unauthorized", and only the counselor gets "Not high risk". *)
Theorem requestAlertDecryption_not_high_risk messageId env s :
  isHighRisk (slot (encryptedMessages s) messageId) = false →
  run (requestAlertDecryption messageId) env s
  = Err (Revert (if msg_sender env =? counselor s
                 then "Not high risk" else "Unauthorized")).
Proof.
  intros Hlow. unfold run. rewrite requestAlertDecryption_eq, Hlow.
  by destruct (msg_sender env =? counselor s).
Qed.

(** C7: for the counselor, [getDecryptedAlert] returns the stored pair
    (content, isDecrypted) of the record's alert and changes nothing; in
    every reachable state an alert whose [isDecrypted] is false has empty
    content, whatever the record's [isHighRisk] flag says. *)
Theorem getDecryptedAlert_empty_until_revealed messageId env s :
  reachable s →
  msg_sender env = counselor s →
  let alert := slot (decryptedAlerts s) messageId in
  run (getDecryptedAlert messageId) env s
    = Ok ((content alert, isDecrypted alert), s, [])
  ∧ (isDecrypted alert = false →
     run (getDecryptedAlert messageId) env s = Ok ((EmptyString, false), s, [])).
Proof.
  intros Hs Hsender alert.
  assert (Hrun : run (getDecryptedAlert messageId) env s
                 = Ok ((content alert, isDecrypted alert), s, [])).
  { unfold run. rewrite getDecryptedAlert_eq.
    by destruct (Z.eqb_spec (msg_sender env) (counselor s)). }
  split; [done|]. intros Hsealed. rewrite Hrun, Hsealed.
  assert (Hempty : content alert = EmptyString); [|by rewrite Hempty].
  subst alert. unfold slot in *.
  destruct (decryptedAlerts s !! messageId) as [a|] eqn:Ha; simpl in *; [|done].
  apply reachable_consistent in Hs. by eapply alerts_sealed.
Qed.

(** C9, as the code has it: reading at an identifier that no submission
    was given does not fail.  Both mapping getters return the zero
    struct, and [getDecryptedAlert] returns empty content and
    [isDecrypted = false] to the counselor; the only failure is
    "Unauthorized" for any other caller of [getDecryptedAlert]. *)
Theorem unallocated_reads_zero deployer fhe0 txs recordId env :
  let s0 := constructor deployer fhe0 in
  let s := apply_txs s0 txs in
  recordId ∉ allocated s0 txs →
  run (encryptedMessages_getter recordId) env s = Ok (zeroMessage, s, [])
  ∧ run (decryptedAlerts_getter recordId) env s = Ok (zeroAlert, s, [])
  ∧ run (getDecryptedAlert recordId) env s
    = if msg_sender env =? counselor s
      then Ok ((EmptyString, false), s, [])
      else Err (Revert "Unauthorized").
Proof.
  cbv zeta. rewrite allocated_since_deployment, elem_of_seqZ.
  set (s := apply_txs _ txs). intros Hfree.
  assert (Hs : consistent s) by apply apply_txs_consistent, constructor_consistent.
  assert (Hmsg : encryptedMessages s !! recordId = None).
  { destruct (encryptedMessages s !! recordId) as [m|] eqn:Hm; [|done].
    apply (messages_allocated s Hs) in Hm. lia. }
  assert (Halert : decryptedAlerts s !! recordId = None).
  { destruct (decryptedAlerts s !! recordId) as [a|] eqn:Ha; [|done].
    apply (alerts_allocated s Hs) in Ha. lia. }
  unfold run. rewrite getDecryptedAlert_eq.
  unfold encryptedMessages_getter, decryptedAlerts_getter, bind, get, ret.
  by rewrite (slot_unwritten _ _ Hmsg), (slot_unwritten _ _ Halert).
Qed.
End Reveal.

(** C5, refuted as stated: record 1 was never marked high-risk, and a caller
    who is not the counselor is told "Unauthorized", not "Not high risk". *)
Lemma requestAlertDecryption_stranger_unauthorized :
  isHighRisk (slot (encryptedMessages evaluating) 1) = false
  ∧ counselor evaluating ≠ 9
  ∧ exec (tx_request 9) evaluating = Err (Revert "Unauthorized").
Proof. repeat split; vm_compute; congruence. Qed.

Lemma requestAlertDecryption_not_high_risk_witness :
  run (requestAlertDecryption 1) (mkEnv 7 1003) evaluating
  = Err (Revert "Not high risk").
Proof.
  refine (requestAlertDecryption_not_high_risk (L := CounterLib)
            1 (mkEnv 7 1003) evaluating _).
  vm_compute. reflexivity.
Defined.

(** C6, the code at the failing input: the counselor issued two reveal
    requests for record 1 before either was answered.  The answer to the
    first one reveals the alert; the answer to the second one is accepted
    although [isDecrypted] is already true, and writes the alert again. *)
Lemma second_reveal_accepted :
  exec (tx_reveal 1) reveal_requested
    = Ok (tt, revealed_once, [DecryptionFulfilled 1; AlertDecrypted 1])
  ∧ slot (decryptedAlerts revealed_once) 1 = mkDecryptedAlert "AB" 0 true
  ∧ exec (tx_reveal 2) revealed_once
    = Ok (tt, revealed_once, [DecryptionFulfilled 2; AlertDecrypted 1])
  ∧ exec (tx_request 7) revealed_once = Err (Revert "Already decrypted").
Proof. repeat split; vm_compute; reflexivity. Qed.

Lemma getDecryptedAlert_empty_until_revealed_witness :
  isHighRisk (slot (encryptedMessages high_risk) 1) = true
  ∧ run (getDecryptedAlert 1) (mkEnv 7 1005) high_risk
    = Ok ((EmptyString, false), high_risk, []).
Proof.
  split; [vm_compute; reflexivity|].
  refine (proj2 (getDecryptedAlert_empty_until_revealed (L := CounterLib)
                   1 (mkEnv 7 1005) high_risk _ _) _).
  - exists 7, 0, [tx_threshold; tx_submit; tx_risk abi_true]. reflexivity.
  - reflexivity.
  - vm_compute. reflexivity.
Defined.

(** C9, refuted as stated: nothing was ever submitted, yet reading record 5
    and its alert returns values instead of failing. *)
Lemma unallocated_read_returns :
  allocated deployed [] = []
  ∧ run (encryptedMessages_getter 5) (mkEnv 9 1000) deployed
    = Ok (zeroMessage, deployed, [])
  ∧ run (getDecryptedAlert 5) (mkEnv 7 1000) deployed
    = Ok ((EmptyString, false), deployed, []).
Proof. repeat split; vm_compute; reflexivity. Qed.

Lemma unallocated_reads_zero_witness :
  run (encryptedMessages_getter 2) (mkEnv 7 1005) evaluating
    = Ok (zeroMessage, evaluating, [])
  ∧ run (decryptedAlerts_getter 2) (mkEnv 7 1005) evaluating
    = Ok (zeroAlert, evaluating, []).
Proof.
  pose proof (unallocated_reads_zero (L := CounterLib)
                7 0 [tx_threshold; tx_submit] 2 (mkEnv 7 1005)) as Hthm.
  destruct Hthm as (Hmsg & Halert & _).
  - change (2 ∉ allocated deployed [tx_threshold; tx_submit]).
    replace (allocated deployed [tx_threshold; tx_submit]) with [1]
      by (vm_compute; reflexivity).
    rewrite list_elem_of_singleton. discriminate.
  - split; [exact Hmsg | exact Halert].
Defined.

(** ** The threshold and the counselor *)

Section Threshold.
Context {L : FHELib}.
Implicit Types (s : State L) (env : Env) (tx : Tx) (txs : list Tx).

Lemma transition_counselor s s' log :
  transition s s' log → counselor s' = counselor s.
Proof. by destruct 1. Qed.

Lemma apply_txs_counselor s txs : counselor (apply_txs s txs) = counselor s.
Proof.
  revert s. induction txs as [|tx txs IH]; intros s; [done|].
  simpl. fold (apply_txs (apply_tx s tx) txs). rewrite IH.
  destruct (apply_tx_cases s tx) as [[-> _]|Hstep]; [done|].
  by eapply transition_counselor.
Qed.

(** Which transactions write the threshold slots. *)
Lemma apply_tx_threshold s tx :
  match tx_call tx with
  | CallSetEncryptedThreshold t =>
      apply_tx s tx =
        if (msg_sender (tx_env tx) =? counselor s) && negb (thresholdSet s)
        then set_thresholdSet true (set_encryptedThreshold t s)
        else s
  | _ =>
      thresholdSet (apply_tx s tx) = thresholdSet s
      ∧ encryptedThreshold (apply_tx s tx) = encryptedThreshold s
  end.
Proof.
  destruct tx as [env []]; unfold apply_tx, exec, run; simpl.
  - rewrite setEncryptedThreshold_eq.
    destruct (_ =? _); [|done]. by destruct (thresholdSet s).
  - rewrite submitEncryptedMessage_eq. repeat case_match; by simplify_eq/=.
  - rewrite handleRiskAssessment_eq. simpl. repeat case_match; by simplify_eq/=.
  - rewrite requestAlertDecryption_eq. repeat case_match; by simplify_eq/=.
  - rewrite handleAlertDecryption_eq. simpl. repeat case_match; by simplify_eq/=.
Qed.

Lemma apply_tx_threshold_frozen s tx :
  thresholdSet s = true →
  thresholdSet (apply_tx s tx) = true
  ∧ encryptedThreshold (apply_tx s tx) = encryptedThreshold s.
Proof.
  intros Hset. pose proof (apply_tx_threshold s tx) as Htx.
  destruct (tx_call tx); try (by rewrite <- Hset).
  rewrite Hset, andb_false_r in Htx. by rewrite Htx.
Qed.

Lemma apply_txs_threshold_frozen s txs :
  thresholdSet s = true →
  thresholdSet (apply_txs s txs) = true
  ∧ encryptedThreshold (apply_txs s txs) = encryptedThreshold s.
Proof.
  revert s. induction txs as [|tx txs IH]; intros s Hset; [done|].
  simpl. fold (apply_txs (apply_tx s tx) txs).
  destruct (apply_tx_threshold_frozen s tx Hset) as [Hset' Hsame].
  destruct (IH _ Hset') as [-> ->]. done.
Qed.

(** C8: [setEncryptedThreshold] called by anyone but the counselor fails
    with "Unauthorized"; called by the counselor while no threshold is
    set, it stores the given handle and raises [thresholdSet]; once
    [thresholdSet] is raised every call fails and is rolled back.  A
    transaction that changes either threshold slot is a call of
    [setEncryptedThreshold] by the counselor with no threshold set before,
    and after that no sequence of transactions changes the threshold, the
    flag, or who the counselor is. *)
Theorem threshold_set_once t env s tx txs :
  (msg_sender env ≠ counselor s →
     run (setEncryptedThreshold t) env s = Err (Revert "Unauthorized"))
  ∧ (msg_sender env = counselor s → thresholdSet s = false →
     ∃ s', run (setEncryptedThreshold t) env s = Ok (tt, s', [])
           ∧ encryptedThreshold s' = t ∧ thresholdSet s' = true)
  ∧ (thresholdSet s = true →
     run (setEncryptedThreshold t) env s
       = Err (Revert (if msg_sender env =? counselor s
                      then "Threshold already set" else "Unauthorized"))
     ∧ apply_tx s (mkTx env (CallSetEncryptedThreshold t)) = s)
  ∧ (thresholdSet (apply_tx s tx) ≠ thresholdSet s
     ∨ encryptedThreshold (apply_tx s tx) ≠ encryptedThreshold s →
     msg_sender (tx_env tx) = counselor s ∧ thresholdSet s = false
     ∧ ∃ t', tx_call tx = CallSetEncryptedThreshold t')
  ∧ (thresholdSet s = true →
     thresholdSet (apply_txs s txs) = true
     ∧ encryptedThreshold (apply_txs s txs) = encryptedThreshold s)
  ∧ counselor (apply_txs s txs) = counselor s.
Proof.
  assert (Hrun : run (setEncryptedThreshold t) env s =
            if msg_sender env =? counselor s then
              if thresholdSet s then Err (Revert "Threshold already set")
              else Ok (tt, set_thresholdSet true (set_encryptedThreshold t s), [])
            else Err (Revert "Unauthorized"))
    by apply setEncryptedThreshold_eq.
  split; [|split; [|split; [|split; [|split]]]].
  - intros Hother. rewrite Hrun.
    by destruct (Z.eqb_spec (msg_sender env) (counselor s)).
  - intros Hsender Hunset. eexists. rewrite Hrun, Hunset.
    by destruct (Z.eqb_spec (msg_sender env) (counselor s)).
  - intros Hset.
    assert (Hfail : run (setEncryptedThreshold t) env s
              = Err (Revert (if msg_sender env =? counselor s
                             then "Threshold already set" else "Unauthorized"))).
    { rewrite Hrun, Hset. by destruct (msg_sender env =? counselor s). }
    split; [done|]. unfold apply_tx, exec. simpl. by rewrite Hfail.
  - intros Hchanged. pose proof (apply_tx_threshold s tx) as Htx.
    destruct (tx_call tx) as [t'| | | |]; try (destruct Htx, Hchanged; congruence).
    destruct (Z.eqb_spec (msg_sender (tx_env tx)) (counselor s)) as [Hsender|];
      destruct (thresholdSet s) eqn:Hset; simpl in Htx; rewrite Htx in Hchanged;
      try (destruct Hchanged; congruence).
    eauto.
  - apply apply_txs_threshold_frozen.
  - apply apply_txs_counselor.
Qed.

(** C10: an accepted [handleRiskAssessment] for a request that maps to
    record [r] writes the decoded answer to [isHighRisk] of record [r] and
    nothing else of the contract's storage: the other fields of record
    [r], every other record, every alert, [messageCount], the threshold
    and its flag, the counselor and the pending requests are as before. *)
Theorem handleRiskAssessment_frame requestId cleartexts proof env s u s' log :
  run (handleRiskAssessment requestId cleartexts proof) env s = Ok (u, s', log) →
  let r := slot (requestToMessageId s) requestId in
  let before := slot (encryptedMessages s) r in
  let after := slot (encryptedMessages s') r in
  r ≠ 0
  ∧ abi_decode_bool cleartexts = Ok (isHighRisk after)
  ∧ id after = id before
  ∧ encryptedContent after = encryptedContent before
  ∧ encryptedRiskScore after = encryptedRiskScore before
  ∧ timestamp after = timestamp before
  ∧ (∀ k, k ≠ r → encryptedMessages s' !! k = encryptedMessages s !! k)
  ∧ decryptedAlerts s' = decryptedAlerts s
  ∧ messageCount s' = messageCount s
  ∧ encryptedThreshold s' = encryptedThreshold s
  ∧ thresholdSet s' = thresholdSet s
  ∧ counselor s' = counselor s
  ∧ requestToMessageId s' = requestToMessageId s.
Proof.
  unfold run. rewrite handleRiskAssessment_eq; simpl.
  destruct (_ =? 0) eqn:Hreq; [discriminate|].
  destruct (FHE_checkSignatures _ _ _ _) as [st|]; [|discriminate].
  destruct (abi_decode_bool cleartexts) as [b|e]; [|discriminate].
  intros [= <- <- <-]. simpl. rewrite slot_insert_eq. simpl.
  repeat split; try done; [lia|].
  intros k Hk. by rewrite lookup_insert_ne.
Qed.
End Threshold.

Lemma threshold_set_once_witness :
  run (setEncryptedThreshold 60) (mkEnv 9 1006) deployed = Err (Revert "Unauthorized")
  ∧ (∃ s', run (setEncryptedThreshold 50) (mkEnv 7 1000) deployed = Ok (tt, s', [])
           ∧ encryptedThreshold s' = 50 ∧ thresholdSet s' = true)
  ∧ run (setEncryptedThreshold 60) (mkEnv 7 1006) configured
    = Err (Revert "Threshold already set")
  ∧ encryptedThreshold (apply_txs configured [tx_submit; tx_risk abi_true]) = 50.
Proof.
  destruct (threshold_set_once (L := CounterLib) 60 (mkEnv 9 1006) deployed
              tx_threshold []) as (Hother & _).
  destruct (threshold_set_once (L := CounterLib) 50 (mkEnv 7 1000) deployed
              tx_threshold []) as (_ & Hfirst & _).
  destruct (threshold_set_once (L := CounterLib) 60 (mkEnv 7 1006) configured
              tx_threshold [tx_submit; tx_risk abi_true])
    as (_ & _ & Hagain & _ & Hfrozen & _).
  split; [|split; [|split]].
  - apply Hother. vm_compute. discriminate.
  - apply Hfirst; reflexivity.
  - apply Hagain. reflexivity.
  - apply Hfrozen. reflexivity.
Defined.

Lemma handleRiskAssessment_frame_witness :
  abi_decode_bool abi_true = Ok (isHighRisk (slot (encryptedMessages high_risk) 1))
  ∧ decryptedAlerts high_risk = decryptedAlerts evaluating
  ∧ messageCount high_risk = messageCount evaluating.
Proof.
  pose proof (handleRiskAssessment_frame (L := CounterLib)
                0 abi_true [x01] (mkEnv 8 1002) evaluating tt high_risk
                [DecryptionFulfilled 0; RiskAssessmentComplete 1 true;
                 AlertGenerated 1]) as Hthm.
  destruct Hthm as (_ & Hflag & _ & _ & _ & _ & _ & Halerts & Hcount & _).
  - vm_compute. reflexivity.
  - split; [exact Hflag|]. split; [exact Halerts | exact Hcount].
Defined.

(** * Further properties of the contract *)

(** ** Layout of the two mappings *)

Section Layout.
Context {L : FHELib}.
Implicit Types (s : State L) (env : Env) (tx : Tx) (txs : list Tx).

Lemma constructor_paired deployer fhe0 : paired (constructor deployer fhe0).
Proof.
  split; simpl.
  - intros k. rewrite lookup_empty. split; [by intros []|lia].
  - intros k. rewrite lookup_empty. split; [by intros []|lia].
  - intros k a. by rewrite lookup_empty.
Qed.

Lemma transition_paired s s' log :
  consistent s → paired s → transition s s' log → paired s'.
Proof.
  intros Hs [Hrec Hal Hscore] Hstep.
  pose proof (count_range s Hs) as Hcount.
  destruct Hstep as [t Hset|c r ts reqId st Hmax|requestId b st Hreq
                    |messageId reqId st Hrisk Hdec|requestId text st Hreq Hrisk].
  - by split.
  - split; simpl.
    + intros k. rewrite lookup_insert. case_decide as Hk.
      * split; [lia|by eexists].
      * rewrite Hrec. lia.
    + intros k. rewrite lookup_insert. case_decide as Hk.
      * split; [lia|by eexists].
      * rewrite Hal. lia.
    + intros k a. rewrite lookup_insert. case_decide as Hk; [|apply Hscore].
      by intros [= <-].
  - apply slot_nonzero_written, (requests_allocated s Hs) in Hreq.
    split; simpl; try done.
    intros k. rewrite lookup_insert. case_decide as Hk; [|apply Hrec].
    subst k. split; [done|by eexists].
  - by split.
  - apply slot_nonzero_written, (requests_allocated s Hs) in Hreq.
    split; simpl; try done.
    + intros k. rewrite lookup_insert. case_decide as Hk; [|apply Hal].
      subst k. split; [done|by eexists].
    + intros k a. rewrite lookup_insert. case_decide as Hk; [|apply Hscore].
      by intros [= <-].
Qed.

Lemma apply_txs_paired s txs :
  consistent s → paired s → paired (apply_txs s txs).
Proof.
  revert s. induction txs as [|tx txs IH]; intros s Hs Hp; [done|].
  simpl. fold (apply_txs (apply_tx s tx) txs).
  apply IH; [by apply apply_tx_consistent|].
  destruct (apply_tx_cases s tx) as [[-> _]|Hstep]; [done|].
  by eapply transition_paired.
Qed.

Lemma reachable_paired s : reachable s → paired s.
Proof.
  intros (deployer & fhe0 & txs & ->).
  apply apply_txs_paired; [apply constructor_consistent|apply constructor_paired].
Qed.

(** X1.  In every reachable state the records and the alerts that were written
    sit at the same keys, namely 1, ..., [messageCount]; there are exactly
    [messageCount] of each; a written record carries its key in [id], and
    an unwritten key reads [id = 0]. *)
Theorem records_and_alerts_paired s k :
  reachable s →
  dom (encryptedMessages s) = dom (decryptedAlerts s)
  ∧ (k ∈ dom (encryptedMessages s) ↔ 1 ≤ k ≤ messageCount s)
  ∧ Z.of_nat (size (encryptedMessages s)) = messageCount s
  ∧ Z.of_nat (size (decryptedAlerts s)) = messageCount s
  ∧ id (slot (encryptedMessages s) k)
    = (if bool_decide (1 ≤ k ≤ messageCount s) then k else 0).
Proof.
  intros Hreach.
  pose proof (reachable_consistent s Hreach) as Hs.
  pose proof (reachable_paired s Hreach) as [Hrec Hal _].
  pose proof (count_range s Hs) as Hcount.
  assert (Hdom : ∀ A (m : gmap Z A),
            (∀ j, is_Some (m !! j) ↔ 1 ≤ j ≤ messageCount s) →
            dom m = list_to_set (seqZ 1 (messageCount s))).
  { intros A m Hm. apply set_eq. intros j.
    rewrite elem_of_dom, elem_of_list_to_set, elem_of_seqZ, Hm. lia. }
  assert (Hsize : ∀ A (m : gmap Z A),
            (∀ j, is_Some (m !! j) ↔ 1 ≤ j ≤ messageCount s) →
            Z.of_nat (size m) = messageCount s).
  { intros A m Hm. rewrite <- size_dom, (Hdom _ _ Hm).
    rewrite size_list_to_set by apply NoDup_seqZ. rewrite length_seqZ. lia. }
  split; [by rewrite (Hdom _ _ Hrec), (Hdom _ _ Hal)|].
  split; [by rewrite elem_of_dom|].
  split; [by apply Hsize|]. split; [by apply Hsize|].
  unfold slot. case_bool_decide as Hk.
  - apply Hrec in Hk as [m Hm]. rewrite Hm. simpl.
    by destruct (messages_allocated s Hs _ _ Hm).
  - destruct (encryptedMessages s !! k) as [m|] eqn:Hm; [|done].
    exfalso. apply Hk, Hrec. by eexists.
Qed.

(** X2.  In every reachable state the [riskScore] field of every alert reads 0:
    no path of the contract ever stores a decrypted score. *)
Theorem alert_riskScore_never_set s k :
  reachable s → riskScore (slot (decryptedAlerts s) k) = 0.
Proof.
  intros Hreach. pose proof (reachable_paired s Hreach) as [_ _ Hscore].
  unfold slot. destruct (decryptedAlerts s !! k) as [a|] eqn:Ha; [|done].
  simpl. by eapply Hscore.
Qed.

(** X3.  In every reachable state a registered request points to a record that
    was handed out: the mapping reads 0 (no request) or an identifier
    between 1 and [messageCount]. *)
Theorem requests_point_to_records s requestId :
  reachable s →
  slot (requestToMessageId s) requestId = 0
  ∨ 1 ≤ slot (requestToMessageId s) requestId ≤ messageCount s.
Proof.
  intros Hreach. apply reachable_consistent in Hreach.
  destruct (Z.eq_dec (slot (requestToMessageId s) requestId) 0) as [|Hnz]; [by left|].
  right. by apply slot_nonzero_written, (requests_allocated s Hreach) in Hnz.
Qed.
End Layout.

(** ** What later transactions can and cannot change *)

Section Stability.
Context {L : FHELib}.
Implicit Types (s : State L) (env : Env) (tx : Tx) (txs : list Tx).

Lemma apply_tx_count_mono s tx : messageCount s ≤ messageCount (apply_tx s tx).
Proof. apply apply_tx_allocates. Qed.

Lemma transition_keeps_submission s s' log k :
  k ≤ messageCount s → transition s s' log →
  same_submission (slot (encryptedMessages s) k) (slot (encryptedMessages s') k).
Proof.
  intros Hk Hstep. unfold same_submission.
  destruct Hstep; simpl; try done.
  - rewrite slot_insert_ne by lia. done.
  - destruct (decide (slot (requestToMessageId s) requestId = k)) as [<-|Hne].
    + by rewrite slot_insert_eq.
    + by rewrite slot_insert_ne.
Qed.

Lemma transition_keeps_revealed s s' log k :
  k ≤ messageCount s → transition s s' log →
  isDecrypted (slot (decryptedAlerts s) k) = true →
  isDecrypted (slot (decryptedAlerts s') k) = true.
Proof.
  intros Hk Hstep. destruct Hstep; simpl; try done.
  - by rewrite slot_insert_ne by lia.
  - destruct (decide (slot (requestToMessageId s) requestId = k)) as [<-|Hne].
    + by rewrite slot_insert_eq.
    + by rewrite slot_insert_ne.
Qed.

(** X4.  Once a record has been handed out, its identifier, both sealed handles
    and its timestamp stay what the submission stored, whatever
    transactions follow; only [isHighRisk] can differ. *)
Theorem submission_never_rewritten s txs k :
  k ≤ messageCount s →
  let before := slot (encryptedMessages s) k in
  let after := slot (encryptedMessages (apply_txs s txs)) k in
  id after = id before
  ∧ encryptedContent after = encryptedContent before
  ∧ encryptedRiskScore after = encryptedRiskScore before
  ∧ timestamp after = timestamp before.
Proof.
  revert s. induction txs as [|tx txs IH]; intros s Hk; [done|].
  simpl. fold (apply_txs (apply_tx s tx) txs).
  pose proof (apply_tx_count_mono s tx) as Hmono.
  destruct (IH (apply_tx s tx) ltac:(lia)) as (-> & -> & -> & ->).
  destruct (apply_tx_cases s tx) as [[-> _]|Hstep]; [done|].
  by apply (transition_keeps_submission _ _ _ k) in Hstep.
Qed.

(** X5.  A revealed alert stays revealed: once [isDecrypted] of a record's alert
    is true, no sequence of transactions brings it back to false. *)
Theorem revealed_never_reverts s txs k :
  k ≤ messageCount s →
  isDecrypted (slot (decryptedAlerts s) k) = true →
  isDecrypted (slot (decryptedAlerts (apply_txs s txs)) k) = true.
Proof.
  revert s. induction txs as [|tx txs IH]; intros s Hk Hrev; [done|].
  simpl. fold (apply_txs (apply_tx s tx) txs).
  pose proof (apply_tx_count_mono s tx) as Hmono.
  apply IH; [lia|].
  destruct (apply_tx_cases s tx) as [[-> _]|Hstep]; [done|].
  by eapply transition_keeps_revealed.
Qed.

(** X6.  A transaction that changes a record already handed out is a call of
    [handleRiskAssessment] whose request maps to that record. *)
Theorem record_changed_only_by_risk_callback s tx k :
  k ≤ messageCount s →
  slot (encryptedMessages (apply_tx s tx)) k ≠ slot (encryptedMessages s) k →
  ∃ requestId cleartexts proof,
    tx_call tx = CallHandleRiskAssessment requestId cleartexts proof
    ∧ slot (requestToMessageId s) requestId = k.
Proof.
  intros Hk. destruct tx as [env [t|c r|requestId cleartexts proof|messageId
                                 |requestId cleartexts proof]];
    unfold apply_tx, exec, run; simpl.
  - rewrite setEncryptedThreshold_eq. repeat case_match; by simplify_eq/=.
  - rewrite submitEncryptedMessage_eq.
    repeat case_match; simplify_eq/=; try done.
    rewrite slot_insert_ne by lia. done.
  - rewrite handleRiskAssessment_eq. simpl.
    destruct (_ =? 0); [done|].
    destruct (FHE_checkSignatures _ _ _ _); [|done].
    destruct (abi_decode_bool _) as [b|]; [|done]. simpl.
    intros Hchanged. exists requestId, cleartexts, proof. split; [done|].
    destruct (decide (slot (requestToMessageId s) requestId = k)) as [|Hne]; [done|].
    by rewrite slot_insert_ne in Hchanged.
  - rewrite requestAlertDecryption_eq. repeat case_match; by simplify_eq/=.
  - rewrite handleAlertDecryption_eq. simpl. repeat case_match; by simplify_eq/=.
Qed.

(** X7.  A transaction that changes the alert of a record already handed out is
    a call of [handleAlertDecryption] whose request maps to that record,
    and the record is high-risk when it runs: the alert of a record that is
    not high-risk cannot be touched. *)
Theorem alert_changed_only_by_reveal_callback s tx k :
  k ≤ messageCount s →
  slot (decryptedAlerts (apply_tx s tx)) k ≠ slot (decryptedAlerts s) k →
  isHighRisk (slot (encryptedMessages s) k) = true
  ∧ ∃ requestId cleartexts proof,
      tx_call tx = CallHandleAlertDecryption requestId cleartexts proof
      ∧ slot (requestToMessageId s) requestId = k.
Proof.
  intros Hk. destruct tx as [env [t|c r|requestId cleartexts proof|messageId
                                 |requestId cleartexts proof]];
    unfold apply_tx, exec, run; simpl.
  - rewrite setEncryptedThreshold_eq. repeat case_match; by simplify_eq/=.
  - rewrite submitEncryptedMessage_eq.
    repeat case_match; simplify_eq/=; try done.
    rewrite slot_insert_ne by lia. done.
  - rewrite handleRiskAssessment_eq. simpl. repeat case_match; by simplify_eq/=.
  - rewrite requestAlertDecryption_eq. repeat case_match; by simplify_eq/=.
  - rewrite handleAlertDecryption_eq. simpl.
    destruct (_ =? 0); [done|].
    destruct (isHighRisk _) eqn:Hrisk; [|done].
    destruct (FHE_checkSignatures _ _ _ _); [|done].
    destruct (abi_decode_string _ _); [|done]. simpl.
    intros Hchanged.
    destruct (decide (slot (requestToMessageId s) requestId = k)) as [<-|Hne].
    + split; [done|]. by exists requestId, cleartexts, proof.
    + by rewrite slot_insert_ne in Hchanged.
Qed.

(** X8.  A transaction sent by anyone but the counselor cannot register a
    request against an existing record: afterwards every request
    identifier maps as before, or maps to the record this very transaction
    has just submitted. *)
Theorem stranger_registers_only_own_submission s tx requestId :
  msg_sender (tx_env tx) ≠ counselor s →
  let s' := apply_tx s tx in
  slot (requestToMessageId s') requestId = slot (requestToMessageId s) requestId
  ∨ (messageCount s' = messageCount s + 1
     ∧ slot (requestToMessageId s') requestId = messageCount s').
Proof.
  intros Hsender. destruct tx as [env [t|c r|rid cleartexts proof|messageId
                                      |rid cleartexts proof]];
    unfold apply_tx, exec, run; simpl in *.
  - rewrite setEncryptedThreshold_eq. repeat case_match; simplify_eq/=; auto.
  - rewrite submitEncryptedMessage_eq.
    destruct (MAX_UINT256 <? _); [auto|].
    destruct (FHE_gt _ _ _) as [[h st1]|]; [|auto].
    destruct (FHE_requestDecryption _ _ _) as [[reqId st2]|]; [|auto]. simpl.
    destruct (decide (reqId = requestId)) as [->|Hne].
    + right. by rewrite slot_insert_eq.
    + left. by rewrite slot_insert_ne.
  - rewrite handleRiskAssessment_eq. simpl. repeat case_match; simplify_eq/=; auto.
  - rewrite requestAlertDecryption_eq.
    destruct (Z.eqb_spec (msg_sender env) (counselor s)); [done|]. auto.
  - rewrite handleAlertDecryption_eq. simpl. repeat case_match; simplify_eq/=; auto.
Qed.
End Stability.

(** ** Events and flows *)

Section Flows.
Context {L : FHELib}.
Implicit Types (s : State L) (env : Env) (tx : Tx) (txs : list Tx).

(** X9.  Every event of an accepted transaction is true of the storage the
    transaction leaves: [MessageSubmitted] names the new counter value and
    the stored timestamp of a fresh record that is not high-risk and has an
    empty alert, [RiskAssessmentComplete] and [AlertGenerated] agree with
    the record's flag, [DecryptionRequested] names a record some request
    maps to, [AlertDecrypted] names a revealed alert, and the library's
    [DecryptionFulfilled] names a registered request. *)
Theorem events_describe_storage s tx e :
  e ∈ tx_events s tx → event_holds (apply_tx s tx) e.
Proof.
  destruct (apply_tx_cases s tx) as [[_ ->]|Hstep]; [by intros ?%elem_of_nil|].
  destruct Hstep as [t Hset|c r ts reqId st Hmax|requestId b st Hreq
                    |messageId reqId st Hrisk Hdec|requestId text st Hreq Hrisk];
    simpl.
  - by intros ?%elem_of_nil.
  - intros He. apply list_elem_of_In in He.
    destruct He as [<-|[<-|[]]]; simpl.
    + by rewrite !slot_insert_eq.
    + exists reqId. by rewrite slot_insert_eq.
  - intros He. apply list_elem_of_In in He.
    destruct He as [<-|[<-|He]]; simpl.
    + done.
    + by rewrite slot_insert_eq.
    + destruct b; [destruct He as [<-|[]]|destruct He]. simpl.
      by rewrite slot_insert_eq.
  - intros He. apply list_elem_of_In in He. destruct He as [<-|[]]. simpl.
    exists reqId. by rewrite slot_insert_eq.
  - intros He. apply list_elem_of_In in He. destruct He as [<-|[<-|[]]]; simpl.
    + done.
    + by rewrite slot_insert_eq.
Qed.

(** X10.  Submission followed by the oracle's answer: when the library accepts
    the comparison and the request, and the callback for the issued request
    carries a proof that verifies and a payload that decodes to [b], the
    new record holds the submitted handles, the submission's timestamp and
    [isHighRisk = b]; its alert is still empty, and the log shows the
    submission, the request, the library's fulfilment, the result, and an
    alert exactly when [b]. *)
Theorem submit_then_risk_callback
    c r env env' s h st1 reqId st2 cleartexts proof st3 b :
  0 ≤ messageCount s < MAX_UINT256 →
  FHE_gt r (encryptedThreshold s) (fhe s) = Some (h, st1) →
  FHE_requestDecryption [h] handleRiskAssessment_selector st1 = Some (reqId, st2) →
  FHE_checkSignatures reqId cleartexts proof st2 = Some st3 →
  abi_decode_bool cleartexts = Ok b →
  let newId := messageCount s + 1 in
  let txs := [mkTx env (CallSubmitEncryptedMessage c r);
              mkTx env' (CallHandleRiskAssessment reqId cleartexts proof)] in
  slot (encryptedMessages (apply_txs s txs)) newId
    = {| id := newId; encryptedContent := c; encryptedRiskScore := r;
         timestamp := block_timestamp env; isHighRisk := b |}
  ∧ slot (decryptedAlerts (apply_txs s txs)) newId = zeroAlert
  ∧ trace_events s txs
    = [MessageSubmitted newId (block_timestamp env); DecryptionRequested newId;
       DecryptionFulfilled reqId; RiskAssessmentComplete newId b]
      ++ (if b then [AlertGenerated newId] else []).
Proof.
  intros Hcount Hgt Hreq Hsig Hdec newId txs.
  assert (Hsubmit : exec (mkTx env (CallSubmitEncryptedMessage c r)) s
            = Ok (tt, submitted c r (block_timestamp env) reqId st2 s,
                  [MessageSubmitted newId (block_timestamp env);
                   DecryptionRequested newId])).
  { unfold exec, run. simpl. rewrite submitEncryptedMessage_eq, Hgt, Hreq.
    by destruct (Z.ltb_spec MAX_UINT256 (messageCount s + 1)); [lia|]. }
  set (s1 := submitted c r (block_timestamp env) reqId st2 s) in *.
  assert (Hcallback : exec (mkTx env' (CallHandleRiskAssessment reqId cleartexts proof)) s1
            = Ok (tt, assessed newId b st3 s1,
                  DecryptionFulfilled reqId
                    :: RiskAssessmentComplete newId b
                    :: (if b then [AlertGenerated newId] else []))).
  { unfold exec, run. simpl. rewrite handleRiskAssessment_eq. simpl.
    rewrite slot_insert_eq. fold newId.
    destruct (Z.eqb_spec newId 0) as [|_]; [subst newId; lia|].
    by rewrite Hsig, Hdec. }
  assert (Hs1 : apply_tx s (mkTx env (CallSubmitEncryptedMessage c r)) = s1)
    by (unfold apply_tx; by rewrite Hsubmit).
  assert (He1 : tx_events s (mkTx env (CallSubmitEncryptedMessage c r))
            = [MessageSubmitted newId (block_timestamp env); DecryptionRequested newId])
    by (unfold tx_events; by rewrite Hsubmit).
  assert (Hs2 : apply_tx s1 (mkTx env' (CallHandleRiskAssessment reqId cleartexts proof))
            = assessed newId b st3 s1)
    by (unfold apply_tx; by rewrite Hcallback).
  assert (He2 : tx_events s1 (mkTx env' (CallHandleRiskAssessment reqId cleartexts proof))
            = DecryptionFulfilled reqId
                :: RiskAssessmentComplete newId b
                :: (if b then [AlertGenerated newId] else []))
    by (unfold tx_events; by rewrite Hcallback).
  subst txs. unfold apply_txs. simpl. rewrite Hs1, Hs2, He1, He2, app_nil_r.
  simpl. fold newId. by rewrite !slot_insert_eq.
Qed.

(** X11.  The reveal flow: in a reachable state, for a high-risk record whose
    alert is not yet revealed, a request by the counselor followed by the
    callback for the issued request, with a proof that verifies and a
    payload that decodes to [text], makes [getDecryptedAlert] return
    ([text], true) to the counselor, and a further reveal request fails
    with "Already decrypted". *)
Theorem reveal_flow messageId env env' env'' s reqId st1 cleartexts proof st2 text :
  reachable s →
  msg_sender env = counselor s →
  msg_sender env'' = counselor s →
  isHighRisk (slot (encryptedMessages s) messageId) = true →
  isDecrypted (slot (decryptedAlerts s) messageId) = false →
  FHE_requestDecryption [encryptedContent (slot (encryptedMessages s) messageId)]
    handleAlertDecryption_selector (fhe s) = Some (reqId, st1) →
  FHE_checkSignatures reqId cleartexts proof st1 = Some st2 →
  abi_decode_string (FHE_free_memory reqId cleartexts proof st2) cleartexts = Ok text →
  let s' := apply_txs s [mkTx env (CallRequestAlertDecryption messageId);
                         mkTx env' (CallHandleAlertDecryption reqId cleartexts proof)] in
  run (getDecryptedAlert messageId) env'' s' = Ok ((text, true), s', [])
  ∧ run (requestAlertDecryption messageId) env'' s' = Err (Revert "Already decrypted").
Proof.
  intros Hreach Hsender Hsender'' Hrisk Hsealed Hreq Hsig Hdec.
  assert (Hid : messageId ≠ 0).
  { apply reachable_consistent in Hreach.
    apply slot_high_risk_written, (messages_allocated s Hreach) in Hrisk. lia. }
  assert (Hrequest : exec (mkTx env (CallRequestAlertDecryption messageId)) s
            = Ok (tt, requested messageId reqId st1 s, [DecryptionRequested messageId])).
  { unfold exec, run. simpl.
    rewrite requestAlertDecryption_eq, Hrisk, Hsealed, Hreq.
    by destruct (Z.eqb_spec (msg_sender env) (counselor s)). }
  set (s1 := requested messageId reqId st1 s) in *.
  assert (Hreveal : exec (mkTx env' (CallHandleAlertDecryption reqId cleartexts proof)) s1
            = Ok (tt, revealed messageId text st2 s1,
                  [DecryptionFulfilled reqId; AlertDecrypted messageId])).
  { unfold exec, run. simpl. rewrite handleAlertDecryption_eq. simpl.
    rewrite slot_insert_eq, Hrisk, Hsig, Hdec.
    by destruct (Z.eqb_spec messageId 0). }
  assert (Hs1 : apply_tx s (mkTx env (CallRequestAlertDecryption messageId)) = s1)
    by (unfold apply_tx; by rewrite Hrequest).
  assert (Hs2 : apply_tx s1 (mkTx env' (CallHandleAlertDecryption reqId cleartexts proof))
            = revealed messageId text st2 s1)
    by (unfold apply_tx; by rewrite Hreveal).
  unfold apply_txs. simpl. rewrite Hs1, Hs2.
  unfold run. rewrite getDecryptedAlert_eq, requestAlertDecryption_eq. simpl.
  rewrite slot_insert_eq, Hrisk. simpl.
  by destruct (Z.eqb_spec (msg_sender env'') (counselor s)).
Qed.

(** X12.  Before the first submission nothing can be resolved or revealed: in a
    reachable state with [messageCount = 0] both callbacks fail with
    "Invalid request" whatever identifier, payload and proof they carry,
    and a reveal request by the counselor fails with "Not high risk". *)
Theorem nothing_to_resolve_before_first_submit s requestId cleartexts proof messageId env :
  reachable s →
  messageCount s = 0 →
  run (handleRiskAssessment requestId cleartexts proof) env s
    = Err (Revert "Invalid request")
  ∧ run (handleAlertDecryption requestId cleartexts proof) env s
    = Err (Revert "Invalid request")
  ∧ (msg_sender env = counselor s →
     run (requestAlertDecryption messageId) env s = Err (Revert "Not high risk")).
Proof.
  intros Hreach Hzero. apply reachable_consistent in Hreach.
  assert (Hreq : slot (requestToMessageId s) requestId = 0).
  { destruct (Z.eq_dec (slot (requestToMessageId s) requestId) 0) as [|Hnz]; [done|].
    apply slot_nonzero_written, (requests_allocated s Hreach) in Hnz. lia. }
  assert (Hrisk : isHighRisk (slot (encryptedMessages s) messageId) = false).
  { destruct (isHighRisk _) eqn:Hhigh; [|done].
    apply slot_high_risk_written, (messages_allocated s Hreach) in Hhigh. lia. }
  unfold run.
  rewrite handleRiskAssessment_eq, handleAlertDecryption_eq,
    requestAlertDecryption_eq. simpl. rewrite Hreq, Hrisk. simpl.
  repeat split. intros Hsender. by destruct (Z.eqb_spec (msg_sender env) (counselor s)).
Qed.
End Flows.

(** ** Frames of the remaining writers *)

Section Frames.
Context {L : FHELib}.
Implicit Types (s : State L) (env : Env) (tx : Tx) (log : list Event).

(** X13.  An accepted [submitEncryptedMessage] touches nothing that existed: every
    record and alert other than the new one, the threshold and its flag and
    the counselor are as before, and the pending requests differ at one
    identifier only, which now maps to the new record. *)
Theorem submitEncryptedMessage_frame c r env s u s' log :
  run (submitEncryptedMessage c r) env s = Ok (u, s', log) →
  let newId := messageCount s + 1 in
  (∀ k, k ≠ newId →
     encryptedMessages s' !! k = encryptedMessages s !! k
     ∧ decryptedAlerts s' !! k = decryptedAlerts s !! k)
  ∧ encryptedThreshold s' = encryptedThreshold s
  ∧ thresholdSet s' = thresholdSet s
  ∧ counselor s' = counselor s
  ∧ ∃ reqId, requestToMessageId s' = <[reqId := newId]> (requestToMessageId s).
Proof.
  unfold run. rewrite submitEncryptedMessage_eq.
  destruct (MAX_UINT256 <? _); [discriminate|].
  destruct (FHE_gt _ _ _) as [[h st1]|]; [|discriminate].
  destruct (FHE_requestDecryption _ _ _) as [[reqId st2]|]; [|discriminate].
  intros [= <- <- <-]. simpl.
  split; [|by eauto 10].
  intros k Hk. by rewrite !lookup_insert_ne.
Qed.

(** X14.  An accepted [requestAlertDecryption] was sent by the counselor for a
    high-risk record whose alert is not revealed; it registers one request
    for that record, logs [DecryptionRequested], and leaves records,
    alerts, counter, threshold and counselor untouched. *)
Theorem requestAlertDecryption_frame messageId env s u s' log :
  run (requestAlertDecryption messageId) env s = Ok (u, s', log) →
  msg_sender env = counselor s
  ∧ isHighRisk (slot (encryptedMessages s) messageId) = true
  ∧ isDecrypted (slot (decryptedAlerts s) messageId) = false
  ∧ log = [DecryptionRequested messageId]
  ∧ encryptedMessages s' = encryptedMessages s
  ∧ decryptedAlerts s' = decryptedAlerts s
  ∧ messageCount s' = messageCount s
  ∧ encryptedThreshold s' = encryptedThreshold s
  ∧ thresholdSet s' = thresholdSet s
  ∧ counselor s' = counselor s
  ∧ ∃ reqId, requestToMessageId s' = <[reqId := messageId]> (requestToMessageId s).
Proof.
  unfold run. rewrite requestAlertDecryption_eq.
  destruct (Z.eqb_spec (msg_sender env) (counselor s)); [|discriminate].
  destruct (isHighRisk _); [|discriminate].
  destruct (isDecrypted _); [discriminate|].
  destruct (FHE_requestDecryption _ _ _) as [[reqId st]|]; [|discriminate].
  intros [= <- <- <-]. simpl. by eauto 15.
Qed.

(** X15.  An accepted [handleAlertDecryption] for a request that maps to record
    [r] found that record high-risk; it logs the library's
    [DecryptionFulfilled] and then [AlertDecrypted], stores the decoded
    text with [isDecrypted = true] as the alert of [r] and writes nothing
    else: the
    records, every other alert, the counter, the threshold, the counselor
    and the pending requests are as before. *)
Theorem handleAlertDecryption_frame requestId cleartexts proof env s u s' log :
  run (handleAlertDecryption requestId cleartexts proof) env s = Ok (u, s', log) →
  let r := slot (requestToMessageId s) requestId in
  r ≠ 0
  ∧ isHighRisk (slot (encryptedMessages s) r) = true
  ∧ (∃ text,
       abi_decode_string (FHE_free_memory requestId cleartexts proof (fhe s'))
         cleartexts = Ok text
       ∧ slot (decryptedAlerts s') r = mkDecryptedAlert text 0 true)
  ∧ log = [DecryptionFulfilled requestId; AlertDecrypted r]
  ∧ (∀ k, k ≠ r → decryptedAlerts s' !! k = decryptedAlerts s !! k)
  ∧ encryptedMessages s' = encryptedMessages s
  ∧ messageCount s' = messageCount s
  ∧ encryptedThreshold s' = encryptedThreshold s
  ∧ thresholdSet s' = thresholdSet s
  ∧ counselor s' = counselor s
  ∧ requestToMessageId s' = requestToMessageId s.
Proof.
  unfold run. rewrite handleAlertDecryption_eq. simpl.
  destruct (Z.eqb_spec (slot (requestToMessageId s) requestId) 0); [discriminate|].
  destruct (isHighRisk _); [|discriminate].
  destruct (FHE_checkSignatures _ _ _ _) as [st|]; [|discriminate].
  destruct (abi_decode_string _ cleartexts) as [text|e] eqn:Hdec; [|discriminate].
  intros [= <- <- <-]. simpl.
  split; [done|]. split; [done|].
  split; [exists text; split; [exact Hdec|by rewrite slot_insert_eq]|].
  split; [done|].
  split; [|done].
  intros k Hk. by rewrite lookup_insert_ne.
Qed.

(** X16.  The counter moves only on submission: a transaction that changes
    [messageCount] is a [submitEncryptedMessage] and raises it by one. *)
Theorem counter_moves_only_by_submit s tx :
  messageCount (apply_tx s tx) ≠ messageCount s →
  messageCount (apply_tx s tx) = messageCount s + 1
  ∧ ∃ c r, tx_call tx = CallSubmitEncryptedMessage c r.
Proof.
  destruct tx as [env [t|c r|requestId cleartexts proof|messageId
                      |requestId cleartexts proof]];
    unfold apply_tx, exec, run; simpl.
  - rewrite setEncryptedThreshold_eq. repeat case_match; by simplify_eq/=.
  - rewrite submitEncryptedMessage_eq.
    repeat case_match; simplify_eq/=; try done. eauto.
  - rewrite handleRiskAssessment_eq. simpl. repeat case_match; by simplify_eq/=.
  - rewrite requestAlertDecryption_eq. repeat case_match; by simplify_eq/=.
  - rewrite handleAlertDecryption_eq. simpl. repeat case_match; by simplify_eq/=.
Qed.

(** X17.  A callback whose payload is shorter than one ABI word, the empty
    payload included, cannot be accepted: for a registered request it is
    turned down by the signature check or, if the proof verifies, by the
    decoder (for [handleAlertDecryption] on a record that is not high-risk,
    by that check); either way the storage is untouched. *)
Theorem short_payload_rejected requestId cleartexts proof env s :
  slot (requestToMessageId s) requestId ≠ 0 →
  Z.of_nat (length cleartexts) < 32 →
  let risk := mkTx env (CallHandleRiskAssessment requestId cleartexts proof) in
  let reveal := mkTx env (CallHandleAlertDecryption requestId cleartexts proof) in
  exec risk s
    = Err (match FHE_checkSignatures requestId cleartexts proof (fhe s) with
                | Some _ => AbiDecodeError
                | None => FHERevert OpCheckSignatures
                end)
  ∧ exec reveal s
    = Err (if isHighRisk (slot (encryptedMessages s)
                            (slot (requestToMessageId s) requestId))
           then match FHE_checkSignatures requestId cleartexts proof (fhe s) with
                | Some _ => AbiDecodeError
                | None => FHERevert OpCheckSignatures
                end
           else Revert "Not high risk")
  ∧ apply_tx s risk = s
  ∧ apply_tx s reveal = s.
Proof.
  intros Hreq Hshort risk reveal.
  assert (Hbool : abi_decode_bool cleartexts = Err AbiDecodeError).
  { unfold abi_decode_bool.
    by destruct (Z.ltb_spec (Z.of_nat (length cleartexts)) 32); [|lia]. }
  assert (Hstring : ∀ memPtr, abi_decode_string memPtr cleartexts = Err AbiDecodeError).
  { intros memPtr. unfold abi_decode_string.
    by destruct (Z.ltb_spec (Z.of_nat (length cleartexts)) 32); [|lia]. }
  assert (Hrisk : exec risk s
            = Err (match FHE_checkSignatures requestId cleartexts proof (fhe s) with
                | Some _ => AbiDecodeError
                | None => FHERevert OpCheckSignatures
                end)).
  { unfold exec, run. simpl. rewrite handleRiskAssessment_eq. simpl.
    destruct (Z.eqb_spec (slot (requestToMessageId s) requestId) 0); [done|].
    rewrite Hbool. by destruct (FHE_checkSignatures _ _ _ _). }
  assert (Hreveal : exec reveal s
            = Err (if isHighRisk (slot (encryptedMessages s)
                                    (slot (requestToMessageId s) requestId))
                   then match FHE_checkSignatures requestId cleartexts proof (fhe s) with
                | Some _ => AbiDecodeError
                | None => FHERevert OpCheckSignatures
                end
                   else Revert "Not high risk")).
  { unfold exec, run. simpl. rewrite handleAlertDecryption_eq. simpl.
    destruct (Z.eqb_spec (slot (requestToMessageId s) requestId) 0); [done|].
    destruct (isHighRisk _); [|done].
    destruct (FHE_checkSignatures _ _ _ _); [|done]. by rewrite Hstring. }
  split; [done|]. split; [done|].
  unfold apply_tx. by rewrite Hrisk, Hreveal.
Qed.
End Frames.

(** * The dashboard *)

Section DashboardFacts.
Context {number : Type} (num : Z → number) (lte gte : number → number → bool).
Implicit Types (messages : list (App.CrisisMessage number)) (counts : list nat).

Lemma increment_sum index counts :
  (index < length counts)%nat →
  sum_list (App.increment index counts) = S (sum_list counts).
Proof.
  unfold App.increment. revert index.
  induction counts as [|n counts IH]; intros [|index] Hlen; simpl in *; try lia.
  specialize (IH index ltac:(lia)). unfold alter in IH. lia.
Qed.

Lemma count_message_spec counts message :
  length counts = 5%nat →
  length (App.count_message number num lte counts message) = 5%nat
  ∧ sum_list (App.count_message number num lte counts message) = S (sum_list counts).
Proof.
  intros Hlen. unfold App.count_message.
  repeat case_match; unfold App.increment at 1; rewrite length_alter;
    (split; [done|]); apply increment_sum; lia.
Qed.

Lemma fold_count_message counts messages :
  length counts = 5%nat →
  length (fold_left (App.count_message number num lte) messages counts) = 5%nat
  ∧ sum_list (fold_left (App.count_message number num lte) messages counts)
    = (sum_list counts + length messages)%nat.
Proof.
  revert counts. induction messages as [|m messages IH]; intros counts Hlen; simpl.
  - split; [done|lia].
  - destruct (count_message_spec counts m Hlen) as [Hlen' Hsum'].
    destruct (IH _ Hlen') as [-> ->]. split; [done|lia].
Qed.

Lemma max_list_bounds (counts : list nat) (n : nat) :
  n ∈ counts → (n ≤ max_list counts)%nat.
Proof.
  induction 1 as [n counts|n m counts _ IH]; simpl; lia.
Qed.

(** X18.  The histogram of [renderRiskChart] has five bars, every message is
    counted in exactly one of them (the bars add up to the number of
    messages), and [maxCount] is at least 1 and at least every bar, so no
    bar is scaled beyond the full height and the division is never by 0. *)
Theorem chart_counts_every_message messages :
  length (App.riskLevels number num lte messages) = 5%nat
  ∧ sum_list (App.riskLevels number num lte messages) = length messages
  ∧ (1 ≤ App.maxCount number num lte messages)%nat
  ∧ Forall (λ count, (count ≤ App.maxCount number num lte messages)%nat)
      (App.riskLevels number num lte messages).
Proof.
  unfold App.maxCount, App.riskLevels.
  destruct (fold_count_message [0; 0; 0; 0; 0]%nat messages eq_refl) as [Hlen Hsum].
  split; [done|]. split; [by rewrite Hsum|].
  split.
  - destruct (Nat.eqb_spec (max_list (fold_left (App.count_message number num lte)
                                         messages [0; 0; 0; 0; 0]%nat)) 0); lia.
  - apply Forall_forall. intros count Hbar. apply max_list_bounds in Hbar.
    destruct (Nat.eqb_spec (max_list (fold_left (App.count_message number num lte)
                                        messages [0; 0; 0; 0; 0]%nat)) 0); lia.
Qed.

(** X19.  The counters of the statistics tab never exceed the number of
    messages, and a message is never counted both as flagged and as
    resolved: the two counters together stay within the total. *)
Theorem statistics_within_total riskThreshold messages :
  (App.highRiskCount number gte riskThreshold messages
     ≤ App.totalMessages number messages)%nat
  ∧ (App.flaggedCount number messages + App.resolvedCount number messages
     ≤ App.totalMessages number messages)%nat.
Proof.
  unfold App.highRiskCount, App.flaggedCount, App.resolvedCount, App.totalMessages.
  split; [apply List.filter_length_le|].
  induction messages as [|m messages IH]; simpl; [lia|].
  destruct (String.eqb_spec (App.status number m) "flagged") as [Hf|_];
    destruct (String.eqb_spec (App.status number m) "resolved") as [Hr|_];
    simpl; try lia.
  rewrite Hf in Hr. discriminate.
Qed.
End DashboardFacts.

(** * The further properties on the concrete run *)

Lemma high_risk_reachable : reachable high_risk.
Proof.
  exists 7, 0, [tx_threshold; tx_submit; tx_risk abi_true].
  vm_compute. reflexivity.
Defined.

Lemma revealed_once_reachable : reachable revealed_once.
Proof.
  exists 7, 0, [tx_threshold; tx_submit; tx_risk abi_true;
                tx_request 7; tx_request 7; tx_reveal 1].
  vm_compute. reflexivity.
Defined.

Lemma configured_reachable : reachable configured.
Proof. exists 7, 0, [tx_threshold]. vm_compute. reflexivity. Defined.

Lemma records_and_alerts_paired_witness :
  dom (encryptedMessages revealed_once) = dom (decryptedAlerts revealed_once)
  ∧ Z.of_nat (size (encryptedMessages revealed_once)) = messageCount revealed_once
  ∧ id (slot (encryptedMessages revealed_once) 1)
    = (if bool_decide (1 ≤ 1 ≤ messageCount revealed_once) then 1 else 0).
Proof.
  destruct (records_and_alerts_paired (L := CounterLib) revealed_once 1
              revealed_once_reachable) as (Hdom & _ & Hsize & _ & Hid).
  split; [exact Hdom|]. split; [exact Hsize|exact Hid].
Defined.

Lemma alert_riskScore_never_set_witness :
  riskScore (slot (decryptedAlerts revealed_once) 1) = 0.
Proof.
  exact (alert_riskScore_never_set (L := CounterLib) revealed_once 1
           revealed_once_reachable).
Defined.

Lemma requests_point_to_records_witness :
  slot (requestToMessageId revealed_once) 2 = 0
  ∨ 1 ≤ slot (requestToMessageId revealed_once) 2 ≤ messageCount revealed_once.
Proof.
  exact (requests_point_to_records (L := CounterLib) revealed_once 2
           revealed_once_reachable).
Defined.

Lemma submission_never_rewritten_witness :
  encryptedContent
    (slot (encryptedMessages
             (apply_txs evaluating
                [tx_risk abi_true; tx_request 7; tx_request 7; tx_reveal 1])) 1)
  = encryptedContent (slot (encryptedMessages evaluating) 1).
Proof.
  destruct (submission_never_rewritten (L := CounterLib) evaluating
              [tx_risk abi_true; tx_request 7; tx_request 7; tx_reveal 1] 1)
    as (_ & Hcontent & _).
  - vm_compute. discriminate.
  - exact Hcontent.
Defined.

Lemma revealed_never_reverts_witness :
  isDecrypted
    (slot (decryptedAlerts
             (apply_txs revealed_once [tx_reveal 2; tx_submit; tx_risk abi_false])) 1)
  = true.
Proof.
  apply (revealed_never_reverts (L := CounterLib) revealed_once
           [tx_reveal 2; tx_submit; tx_risk abi_false] 1).
  - vm_compute. discriminate.
  - vm_compute. reflexivity.
Defined.

Lemma record_changed_only_by_risk_callback_witness :
  ∃ requestId cleartexts proof,
    tx_call (tx_risk abi_true) = CallHandleRiskAssessment requestId cleartexts proof
    ∧ slot (requestToMessageId evaluating) requestId = 1.
Proof.
  apply (record_changed_only_by_risk_callback (L := CounterLib) evaluating
           (tx_risk abi_true) 1).
  - vm_compute. discriminate.
  - vm_compute. discriminate.
Defined.

Lemma alert_changed_only_by_reveal_callback_witness :
  isHighRisk (slot (encryptedMessages reveal_requested) 1) = true
  ∧ ∃ requestId cleartexts proof,
      tx_call (tx_reveal 1) = CallHandleAlertDecryption requestId cleartexts proof
      ∧ slot (requestToMessageId reveal_requested) requestId = 1.
Proof.
  apply (alert_changed_only_by_reveal_callback (L := CounterLib) reveal_requested
           (tx_reveal 1) 1).
  - vm_compute. discriminate.
  - vm_compute. discriminate.
Defined.

Lemma stranger_registers_only_own_submission_witness :
  slot (requestToMessageId (apply_tx configured tx_submit)) 0
    = slot (requestToMessageId configured) 0
  ∨ (messageCount (apply_tx configured tx_submit) = messageCount configured + 1
     ∧ slot (requestToMessageId (apply_tx configured tx_submit)) 0
       = messageCount (apply_tx configured tx_submit)).
Proof.
  apply (stranger_registers_only_own_submission (L := CounterLib) configured tx_submit 0).
  vm_compute. discriminate.
Defined.

Lemma events_describe_storage_witness :
  event_holds (apply_tx evaluating (tx_risk abi_true)) (AlertGenerated 1).
Proof.
  apply (events_describe_storage (L := CounterLib) evaluating (tx_risk abi_true)
           (AlertGenerated 1)).
  replace (tx_events evaluating (tx_risk abi_true))
    with [DecryptionFulfilled 0; RiskAssessmentComplete 1 true; AlertGenerated 1]
    by (vm_compute; reflexivity).
  apply list_elem_of_In. right. right. left. reflexivity.
Defined.

Lemma submit_then_risk_callback_witness :
  slot (decryptedAlerts
          (apply_txs configured
             [mkTx (mkEnv 9 1001) (CallSubmitEncryptedMessage 11 22);
              mkTx (mkEnv 8 1002) (CallHandleRiskAssessment 0 abi_false [x01])]))
       (messageCount configured + 1)
  = zeroAlert
  ∧ trace_events configured
      [mkTx (mkEnv 9 1001) (CallSubmitEncryptedMessage 11 22);
       mkTx (mkEnv 8 1002) (CallHandleRiskAssessment 0 abi_false [x01])]
    = [MessageSubmitted 1 1001; DecryptionRequested 1;
       DecryptionFulfilled 0; RiskAssessmentComplete 1 false].
Proof.
  destruct (submit_then_risk_callback (L := CounterLib)
              11 22 (mkEnv 9 1001) (mkEnv 8 1002) configured
              (22 * 2 ^ 32 + 50 + 1) 0 0 1 abi_false [x01] 1 false)
    as (_ & Halert & Hlog).
  - vm_compute. split; [discriminate|reflexivity].
  - vm_compute. reflexivity.
  - vm_compute. reflexivity.
  - vm_compute. reflexivity.
  - vm_compute. reflexivity.
  - split; [exact Halert|].
    etransitivity; [exact Hlog|]. vm_compute. reflexivity.
Defined.

Lemma reveal_flow_witness :
  run (requestAlertDecryption 1) (mkEnv 7 1005)
      (apply_txs high_risk
         [mkTx (mkEnv 7 1003) (CallRequestAlertDecryption 1);
          mkTx (mkEnv 8 1004) (CallHandleAlertDecryption 1 (abi_string plaintext) [x01])])
  = Err (Revert "Already decrypted").
Proof.
  destruct (reveal_flow (L := CounterLib) 1 (mkEnv 7 1003) (mkEnv 8 1004)
              (mkEnv 7 1005) high_risk 1 2 (abi_string plaintext) [x01] 2
              "AB"%string high_risk_reachable)
    as (_ & Hagain).
  - vm_compute. reflexivity.
  - vm_compute. reflexivity.
  - vm_compute. reflexivity.
  - vm_compute. reflexivity.
  - vm_compute. reflexivity.
  - vm_compute. reflexivity.
  - vm_compute. reflexivity.
  - exact Hagain.
Defined.

Lemma nothing_to_resolve_before_first_submit_witness :
  run (handleRiskAssessment 0 abi_true [x01]) (mkEnv 8 1002) configured
    = Err (Revert "Invalid request")
  ∧ run (handleAlertDecryption 0 abi_true [x01]) (mkEnv 8 1002) configured
    = Err (Revert "Invalid request").
Proof.
  destruct (nothing_to_resolve_before_first_submit (L := CounterLib) configured
              0 abi_true [x01] 1 (mkEnv 8 1002) configured_reachable)
    as (Hrisk & Hreveal & _).
  - vm_compute. reflexivity.
  - split; [exact Hrisk|exact Hreveal].
Defined.

Lemma submitEncryptedMessage_frame_witness :
  encryptedThreshold evaluating = encryptedThreshold configured
  ∧ counselor evaluating = counselor configured.
Proof.
  destruct (submitEncryptedMessage_frame (L := CounterLib) 11 22 (mkEnv 9 1001)
              configured tt evaluating
              [MessageSubmitted 1 1001; DecryptionRequested 1])
    as (_ & Hthr & _ & Hcounselor & _).
  - vm_compute. reflexivity.
  - split; [exact Hthr|exact Hcounselor].
Defined.

Lemma requestAlertDecryption_frame_witness :
  encryptedMessages (apply_tx high_risk (tx_request 7)) = encryptedMessages high_risk
  ∧ decryptedAlerts (apply_tx high_risk (tx_request 7)) = decryptedAlerts high_risk.
Proof.
  destruct (requestAlertDecryption_frame (L := CounterLib) 1 (mkEnv 7 1003)
              high_risk tt (apply_tx high_risk (tx_request 7))
              [DecryptionRequested 1])
    as (_ & _ & _ & _ & Hrecords & Halerts & _).
  - vm_compute. reflexivity.
  - split; [exact Hrecords|exact Halerts].
Defined.

Lemma handleAlertDecryption_frame_witness :
  encryptedMessages revealed_once = encryptedMessages reveal_requested
  ∧ requestToMessageId revealed_once = requestToMessageId reveal_requested.
Proof.
  destruct (handleAlertDecryption_frame (L := CounterLib) 1 (abi_string plaintext)
              [x01] (mkEnv 8 1004) reveal_requested tt revealed_once
              [DecryptionFulfilled 1; AlertDecrypted 1])
    as (_ & _ & _ & _ & _ & Hrecords & _ & _ & _ & _ & Hrequests).
  - vm_compute. reflexivity.
  - split; [exact Hrecords|exact Hrequests].
Defined.

Lemma counter_moves_only_by_submit_witness :
  messageCount (apply_tx configured tx_submit) = messageCount configured + 1
  ∧ ∃ c r, tx_call tx_submit = CallSubmitEncryptedMessage c r.
Proof.
  apply (counter_moves_only_by_submit (L := CounterLib) configured tx_submit).
  vm_compute. discriminate.
Defined.

Lemma short_payload_rejected_witness :
  apply_tx evaluating (mkTx (mkEnv 8 1002) (CallHandleRiskAssessment 0 [] [x01]))
  = evaluating.
Proof.
  destruct (short_payload_rejected (L := CounterLib) 0 [] [x01] (mkEnv 8 1002) evaluating)
    as (_ & _ & Hsame & _).
  - vm_compute. discriminate.
  - vm_compute. reflexivity.
  - exact Hsame.
Defined.
